(** * node-mogile: the Domain class (lib/domain.js)

    A shallow embedding of [Domain.prototype.getPaths], [del], [getFile],
    [storeFile] and [get_keys].  The JavaScript is callback driven: every
    method issues calls on its collaborators (the tracker client
    [mogile.send], [fs], [http], [process.nextTick]) and registers
    handlers that run later.  A method is therefore embedded as

    - the list of collaborator calls it makes, in program order
      (type [action]), and
    - a transition function that runs the handler registered for an
      incoming event on the closure variables of the method.

    The environment (tracker, file system, sockets, scheduler) is not
    part of the program: it appears as the list of events fed to the
    transition function, and every assumption on it is a hypothesis of
    the theorem that needs it. *)

From Stdlib Require Import ZArith Lia List Bool Ascii String.
From stdpp Require Import base strings gmap list pretty.

Open Scope Z_scope.

(** ** JavaScript values *)

(** The values the methods of [Domain] inspect.  Numbers are the integer
    values ([Z]) and [NaN]; the arithmetic of the file ([i++],
    [bytes_written += data.length]) is exact on them below 2^53.
    [JFun] names a function value, [JErr] an error object. *)
#[warnings="-register-all"]
Inductive jsval : Type :=
| JUndefined
| JNull
| JBool (b : bool)
| JNum (n : Z)
| JNaN
| JStr (s : string)
| JFun (name : string)
| JErr (msg : string)
| JArr (elems : list jsval).

(** ToBoolean. *)
Definition truthy (v : jsval) : bool :=
  match v with
  | JUndefined | JNull | JNaN => false
  | JBool b => b
  | JNum n => negb (n =? 0)
  | JStr s => negb (String.eqb s "")
  | JFun _ | JErr _ | JArr _ => true
  end.

(** [a || b] *)
Definition js_or (a b : jsval) : jsval := if truthy a then a else b.

(** [typeof v] *)
Definition typeof (v : jsval) : string :=
  match v with
  | JUndefined => "undefined"
  | JNull | JErr _ | JArr _ => "object"
  | JBool _ => "boolean"
  | JNum _ | JNaN => "number"
  | JStr _ => "string"
  | JFun _ => "function"
  end.

(** [noop = function() {}] (line 4). *)
Definition noop : jsval := JFun "noop".

(** An object used as a key/value mapping: the argument mapping handed to
    [mogile.send] and the decoded tracker response. *)
Abbreviation jsobj := (gmap string jsval).

(** [o[k]]: a missing property reads as [undefined]. *)
Definition prop (o : jsobj) (k : string) : jsval := default JUndefined (o !! k).

(** ** Numeric conversion of a response field

    [i <= response['paths']] compares a number with a field of the decoded
    response, which converts the field with ToNumber.  The fragment
    modelled: [undefined] (a missing field) is NaN, a number is itself,
    the empty string is 0, a non-empty string of decimal digits is its
    value; every string that is no numeric literal at all is NaN.  Signed,
    fractional, exponent, hexadecimal and [Infinity] literals and
    surrounding white space, and fields that are arrays, are outside the
    fragment (they are mapped to NaN here, and no theorem below is
    instantiated on them). *)
Inductive jsnum : Type := NaN | Num (n : Z).

Definition digit_of (c : ascii) : option Z :=
  let n := Z.of_N (N_of_ascii c) in
  if (48 <=? n) && (n <=? 57) then Some (n - 48) else None.

Fixpoint parse_digits (acc : Z) (s : string) : option Z :=
  match s with
  | EmptyString => Some acc
  | String c s' =>
      match digit_of c with
      | Some d => parse_digits (10 * acc + d) s'
      | None => None
      end
  end.

Definition ToNumber (v : jsval) : jsnum :=
  match v with
  | JNum n => Num n
  | JStr s => match parse_digits 0 s with Some n => Num n | None => NaN end
  | JNull => Num 0
  | JBool b => Num (if b then 1 else 0)
  | _ => NaN
  end.

(** [a <= b] on numbers: false as soon as one side is NaN. *)
Definition js_le (a b : jsnum) : bool :=
  match a, b with
  | Num x, Num y => x <=? y
  | _, _ => false
  end.

(** The field values on which [ToNumber] above agrees with JavaScript:
    anything that is no string or array, a string of decimal digits below
    2^53, and a string whose first character is a printable ASCII
    character that no numeric literal starts with (not a digit, a sign, a
    dot or the [I] of [Infinity]). *)
Definition starts_no_literal (s : string) : bool :=
  match s with
  | EmptyString => false
  | String c _ =>
      let n := Z.of_N (N_of_ascii c) in
      (33 <=? n) && (n <=? 126) && negb ((48 <=? n) && (n <=? 57))
      && negb (n =? 43) && negb (n =? 45) && negb (n =? 46) && negb (n =? 73)
  end.

Definition ToNumber_modelled (v : jsval) : bool :=
  match v with
  | JStr s =>
      match parse_digits 0 s with
      | Some n => n <? 2 ^ 53
      | None => starts_no_literal s
      end
  | JErr _ | JArr _ => false
  | _ => true
  end.

(** ** Calls on the collaborators *)

(** The calls a method of [Domain] makes, in program order.  [ASend] is
    [this.mogile.send(this.name, cmd, args, handler)]; [ACall f args] is a
    call of the completion callback.  [AReqAbort] (closing the HTTP
    exchange from the client side) is part of the collaborator's interface
    and is listed so that its absence from every handler can be stated. *)
Inductive action : Type :=
| ASend (domain cmd : string) (args : jsobj)
| ACall (f : jsval) (args : list jsval)
| ACreateWriteStream (local : string)
| AHttpGet (url : string)
| AStreamWrite (len : Z)
| AResPause
| AResResume
| AStreamEnd
| ANextTick
| AStat (local : string)
| AHttpPut (url : string) (content_length : Z)
| ACreateReadStream (local : string)
| APipe
| ARequestEnd
| AReqAbort
| AUncaught (what : string).

(** What the tracker client hands to the handler given to [send]:
    [function(err, response)]. *)
Record reply : Type := Reply { r_err : jsval; r_response : jsobj }.

(** A call [callback(null, n)]: a transfer reported success with a byte
    count. *)
Definition is_success (a : action) : bool :=
  match a with
  | ACall _ [JNull; JNum _] => true
  | _ => false
  end.

Definition is_send (a : action) : bool :=
  match a with
  | ASend _ _ _ => true
  | _ => false
  end.

(** ** getPaths (lines 40-59) *)
Module GetPaths.

(** Lines 43-46. *)
Definition args (key noverify : jsval) : jsobj :=
  {[ "key" := key;
     "noverify" := if truthy noverify then JStr "1" else JStr "0" ]}.

(** The request of line 47. *)
Definition request (name : string) (key noverify : jsval) : action :=
  ASend name "GET_PATHS" (args key noverify).

(** Lines 52-54: [for (var i = 1; i <= response['paths']; i++)
    paths.push(response['path' + i])].  One unit of fuel per test of the
    loop condition. *)
Fixpoint loop (fuel : nat) (response : jsobj) (i : Z) (paths : list jsval)
  : option (list jsval) :=
  match fuel with
  | O => None
  | S fuel' =>
      if js_le (Num i) (ToNumber (prop response "paths"))
      then loop fuel' response (i + 1)
                (paths ++ [prop response ("path" +:+ pretty i)])
      else Some paths
  end.

(** The number of tests of the loop condition the loop needs. *)
Definition fuel_for (response : jsobj) : nat :=
  match ToNumber (prop response "paths") with
  | Num n => S (Z.to_nat n)
  | NaN => 1%nat
  end.

Definition paths_of (response : jsobj) : option (list jsval) :=
  loop (fuel_for response) response 1 [].

(** The fields [path1 .. pathN] of a response, in order, for [N] the
    value of the count field; a field that is missing reads as
    [undefined]. *)
Definition numbered (response : jsobj) : list jsval :=
  match ToNumber (prop response "paths") with
  | Num n => map (fun i => prop response ("path" +:+ pretty i)) (seqZ 1 n)
  | NaN => []
  end.

(** The handler of lines 47-56: the arguments [callback] is called
    with.  [None] only if the loop ran out of fuel. *)
Definition on_reply (r : reply) : option (list jsval) :=
  if truthy (r_err r) then Some [r_err r]
  else paths ← paths_of (r_response r); Some [JNull; JArr paths].

End GetPaths.

(** ** del (lines 69-86) *)
Module Del.

(** The rebinding of lines 71-75: the pair (storage_class, callback)
    the rest of the method sees. *)
Definition rebind (storage_class callback : jsval) : jsval * jsval :=
  let '(storage_class, callback) :=
    if String.eqb (typeof storage_class) "function"
    then (JNull, storage_class)
    else (storage_class, callback) in
  (storage_class, js_or callback noop).

(** Lines 76-79. *)
Definition args (key storage_class callback : jsval) : jsobj :=
  {[ "key" := key; "class" := fst (rebind storage_class callback) ]}.

Definition request (name : string) (key storage_class callback : jsval)
  : action :=
  ASend name "DELETE" (args key storage_class callback).

(** The function the handler of lines 80-85 calls. *)
Definition completion (storage_class callback : jsval) : jsval :=
  snd (rebind storage_class callback).

(** Lines 80-85. *)
Definition on_reply (storage_class callback : jsval) (r : reply)
  : list action :=
  if truthy (r_err r)
  then [ACall (completion storage_class callback) [r_err r]]
  else [ACall (completion storage_class callback) []].

End Del.

(** ** get_keys (lines 260-283) *)
Module GetKeys.

(** Lines 263-272. *)
Definition args (prefix lastKey limit : jsval) : jsobj :=
  let lastKey := js_or lastKey (JNum 0) in
  let limit := js_or limit (JNum 100) in
  {[ "prefix" := prefix; "after" := lastKey; "limit" := limit ]}.

Definition request (name : string) (prefix lastKey limit : jsval) : action :=
  ASend name "list_keys" (args prefix lastKey limit).

End GetKeys.

(** ** getFile (lines 119-182) *)
Module GetFile.

(** The closure variables of one call ([bytes_written], [paused],
    [response], and the [paths] argument of the inner callback) and the
    handlers registered so far.  [response] records whether the variable
    is still [null].  A handler passed as a callback argument
    ([getPaths], [http.get], [process.nextTick]) runs once; a listener
    added with [on] stays. *)
Record state : Type := State {
  bytes_written : Z;
  paused : bool;
  response : bool;
  paths : jsval;
  on_paths : bool;       (* the callback of line 126 has not run yet *)
  on_stream : bool;      (* 'open', 'error', 'drain' on stream *)
  on_response : bool;    (* the callback of line 143 has not run yet *)
  on_get_error : bool;   (* 'error' on get *)
  on_res : bool;         (* 'data', 'end' on res *)
  ticks : nat;           (* calls of [finished] queued by nextTick *)
  crashed : bool         (* an exception escaped a handler *)
}.

Inductive event : Type :=
| EvPathsReply (r : reply)           (* the tracker answers GET_PATHS *)
| EvOpen                             (* stream 'open' *)
| EvResponse                         (* http.get calls back with res *)
| EvData (len : Z) (drained : bool)  (* res 'data'; what stream.write returns *)
| EvEnd                              (* res 'end' *)
| EvTick                             (* a queued call of finished runs *)
| EvGetError (e : jsval)             (* get 'error' *)
| EvStreamError (e : jsval)          (* stream 'error' *)
| EvDrain (complete : bool).         (* stream 'drain'; response.complete *)

Definition set_paused (b : bool) (s : state) : state :=
  State (bytes_written s) b (response s) (paths s) (on_paths s)
        (on_stream s) (on_response s) (on_get_error s) (on_res s)
        (ticks s) (crashed s).

Definition set_ticks (n : nat) (s : state) : state :=
  State (bytes_written s) (paused s) (response s) (paths s) (on_paths s)
        (on_stream s) (on_response s) (on_get_error s) (on_res s)
        n (crashed s).

Definition crash (s : state) : state :=
  State (bytes_written s) (paused s) (response s) (paths s) (on_paths s)
        (on_stream s) (on_response s) (on_get_error s) (on_res s)
        (ticks s) true.

(** [a[i]] on an array value. *)
Definition js_index (a : jsval) (i : nat) : jsval :=
  match a with
  | JArr l => nth i l JUndefined
  | _ => JUndefined
  end.

(** [url.parse] raises a TypeError on anything but a string; the parts
    of a string ([hostname], [port], [pathname]) are not taken apart
    here, the request is recorded with the URL itself.  On a string
    [url.parse] raises only when the auth part holds a percent escape that
    cannot be decoded; that error is not modelled, see [url_modelled]. *)
Definition url_parse (v : jsval) : option string :=
  match v with
  | JStr u => Some u
  | _ => None
  end.

Section Handlers.

Variable name : string.      (* this.name *)
Variable key : jsval.
Variable local : string.
Variable callback : jsval.

(** Line 121. *)
Definition cb : jsval := js_or callback noop.

(** Lines 120-126 and 181: the call itself. *)
Definition start : state * list action :=
  (State 0 false false JUndefined true false false false false 0%nat false,
   [GetPaths.request name key (JNum 0)]).

(** Lines 154-161. *)
Definition finished (s : state) : state * list action :=
  if paused s
  then (set_ticks (S (ticks s)) s, [ANextTick])
  else (s, [AStreamEnd; ACall cb [JNull; JNum (bytes_written s)]]).

(** Lines 126-135 and the registrations of lines 136, 170, 173. *)
Definition on_paths_reply (s : state) (r : reply) : state * list action :=
  match GetPaths.on_reply r with
  | None => (s, [])
  | Some args =>
      let err := nth 0 args JUndefined in
      let paths' := nth 1 args JUndefined in
      if truthy err
      then (State (bytes_written s) (paused s) (response s) paths'
                  false (on_stream s) (on_response s) (on_get_error s)
                  (on_res s) (ticks s) (crashed s),
            [ACall cb [err]])
      else (State (bytes_written s) (paused s) (response s) paths'
                  false true (on_response s) (on_get_error s)
                  (on_res s) (ticks s) (crashed s),
            [ACreateWriteStream local])
  end.

(** Lines 136-143 and the registration of line 165. *)
Definition on_open (s : state) : state * list action :=
  match url_parse (js_index (paths s) 0) with
  | None => (crash s, [AUncaught "TypeError"])
  | Some u =>
      (State (bytes_written s) (paused s) (response s) (paths s)
             (on_paths s) (on_stream s) true true (on_res s)
             (ticks s) (crashed s),
       [AHttpGet u])
  end.

(** Lines 144-145, 153. *)
Definition on_http_response (s : state) : state * list action :=
  (State (bytes_written s) (paused s) true (paths s)
         (on_paths s) (on_stream s) false (on_get_error s) true
         (ticks s) (crashed s),
   []).

(** Lines 145-152.  [bytes_written += data.length] adds doubles; the sum
    in [Z] is the same number as long as the lengths are not negative and
    the sum stays below 2^53, which the theorems that state a byte count
    assume. *)
Definition on_data (s : state) (len : Z) (drained : bool)
  : state * list action :=
  let s1 := State (bytes_written s + len) (paused s) (response s)
                  (paths s) (on_paths s) (on_stream s) (on_response s)
                  (on_get_error s) (on_res s) (ticks s) (crashed s) in
  if drained
  then (s1, [AStreamWrite len])
  else (set_paused true s1, [AStreamWrite len; AResPause]).

(** Lines 165-168. *)
Definition on_get_error_ev (s : state) (e : jsval) : state * list action :=
  (s, [AStreamEnd; ACall cb [e]]).

(** Lines 170-172. *)
Definition on_stream_error (s : state) (e : jsval) : state * list action :=
  (s, [ACall cb [e]]).

(** Lines 173-178.  Reading [response.complete] while [response] is
    still [null] raises a TypeError. *)
Definition on_drain (s : state) (complete : bool) : state * list action :=
  if paused s
  then if response s
       then (set_paused false s,
             if negb complete then [AResResume] else [])
       else (crash s, [AUncaught "TypeError"])
  else (s, []).

(** One event: the handler registered for it runs, if there is one.
    Any event may follow any other here.  The scheduler of Node admits
    fewer orders: it runs the calls queued with [process.nextTick] before
    it delivers any further I/O event (so no 'drain' comes between two
    re-checks of [finished]), and a source that has been paused and not
    resumed delivers no 'end'.  The event lists below are therefore a
    superset of the runs of the program: what is proved for every event
    list holds of every run. *)
Definition step (s : state) (e : event) : state * list action :=
  if crashed s then (s, []) else
  match e with
  | EvPathsReply r => if on_paths s then on_paths_reply s r else (s, [])
  | EvOpen => if on_stream s then on_open s else (s, [])
  | EvResponse => if on_response s then on_http_response s else (s, [])
  | EvData len drained => if on_res s then on_data s len drained else (s, [])
  | EvEnd => if on_res s then finished s else (s, [])
  | EvTick =>
      match ticks s with
      | O => (s, [])
      | S n => finished (set_ticks n s)
      end
  | EvGetError e => if on_get_error s then on_get_error_ev s e else (s, [])
  | EvStreamError e => if on_stream s then on_stream_error s e else (s, [])
  | EvDrain c => if on_stream s then on_drain s c else (s, [])
  end.

(** The steps of a run: for each event, the state its handler ran in,
    the event, and the calls the handler made. *)
Fixpoint steps (s : state) (evs : list event)
  : list (state * event * list action) :=
  match evs with
  | [] => []
  | e :: evs' => (s, e, snd (step s e)) :: steps (fst (step s e)) evs'
  end.

Fixpoint final (s : state) (evs : list event) : state :=
  match evs with
  | [] => s
  | e :: evs' => final (fst (step s e)) evs'
  end.

(** All the calls of a run, in order. *)
Definition calls (s : state) (evs : list event) : list action :=
  concat (map snd (steps s evs)).

(** A whole download: the call of getFile followed by the events. *)
Definition download (evs : list event) : list (state * event * list action) :=
  steps (fst start) evs.

Definition download_calls (evs : list event) : list action :=
  snd start ++ calls (fst start) evs.

End Handlers.

(** One chunk of the body as the environment delivers it: its length,
    what [stream.write] returns for it, and, when the write saturated
    the sink, the value of [response.complete] the 'drain' handler
    reads. *)
Record chunk : Type := Chunk {
  c_len : Z;
  c_drained : bool;
  c_complete : bool
}.

(** The events of a body in which the source is silent between a
    saturating write and the 'drain' that follows it. *)
Fixpoint pump (cs : list chunk) : list event :=
  match cs with
  | [] => []
  | c :: cs' =>
      EvData (c_len c) (c_drained c)
      :: (if c_drained c then [] else [EvDrain (c_complete c)])
      ++ pump cs'
  end.

(** The calls the handlers make for one chunk of [pump]. *)
Definition chunk_calls (c : chunk) : list action :=
  AStreamWrite (c_len c)
  :: (if c_drained c then []
      else AResPause :: (if c_complete c then [] else [AResResume])).

Fixpoint total (cs : list chunk) : Z :=
  match cs with
  | [] => 0
  | c :: cs' => c_len c + total cs'
  end.

(** The number of suspend/resume cycles of a body. *)
Definition saturations (cs : list chunk) : nat :=
  length (List.filter (fun c => negb (c_drained c)) cs).

Definition is_get_error (e : event) : bool :=
  match e with EvGetError _ => true | _ => false end.

Definition is_pause (a : action) : bool :=
  match a with AResPause => true | _ => false end.

(** The strings on which [url_parse] above agrees with [url.parse] for
    sure: those without a percent sign, in which no escape can fail to
    decode. *)
Fixpoint url_modelled (u : string) : bool :=
  match u with
  | EmptyString => true
  | String c u' => negb (Ascii.eqb c "%") && url_modelled u'
  end.

(** A body in which every 'drain' finds the response not yet complete,
    so that the source is resumed after every pause. *)
Definition resumed_body (cs : list chunk) : bool :=
  forallb (fun c => c_drained c || negb (c_complete c)) cs.

(** The calls of one chunk of such a body: the write, and for a
    saturating write the pause and the resume of the source. *)
Definition cycle_calls (c : chunk) : list action :=
  AStreamWrite (c_len c)
  :: (if c_drained c then [] else [AResPause; AResResume]).

(** Lengths whose sum the double arithmetic of the source computes
    exactly. *)
Definition exact_lengths (l : list Z) : bool :=
  forallb (fun x => 0 <=? x) l && (fold_right Z.add 0 l <? 2 ^ 53).

End GetFile.

(** ** storeFile (lines 193-248) *)
Module StoreFile.

(** The closure variables ([response] of the CREATE_OPEN handler, the
    size read from [stat]) and the handlers registered so far.  No
    handler is ever registered for the response of the PUT request
    ([http.request(options)] is given no callback, line 223). *)
Record state : Type := State {
  response : jsobj;
  stat_size : Z;
  on_open_reply : bool;     (* the handler of line 201 has not run yet *)
  on_stat : bool;           (* the handler of line 207 has not run yet *)
  on_request_error : bool;  (* 'error' on request *)
  on_source_end : bool;     (* 'end' on stream *)
  close_replies : nat;      (* handlers of line 239 waiting for their reply *)
  crashed : bool
}.

Inductive event : Type :=
| EvOpenReply (r : reply)           (* the tracker answers CREATE_OPEN *)
| EvStat (err : jsval) (size : Z)   (* fs.stat calls back *)
| EvRequestError (e : jsval)        (* request 'error' *)
| EvSourceEnd                       (* stream 'end' *)
| EvPutResponse (status : Z)        (* the storage node answers the PUT *)
| EvCloseReply (r : reply).         (* the tracker answers CREATE_CLOSE *)

Section Handlers.

Variable name : string.
Variables key storage_class : jsval.
Variable local : string.
Variable callback : jsval.

(** Line 195. *)
Definition cb : jsval := js_or callback noop.

(** Lines 197-200. *)
Definition open_args : jsobj :=
  {[ "key" := key; "class" := storage_class ]}.

(** Lines 232-238. *)
Definition close_args (response : jsobj) : jsobj :=
  {[ "key" := key;
     "class" := storage_class;
     "devid" := prop response "devid";
     "fid" := prop response "fid";
     "path" := prop response "path" ]}.

(** Lines 195-201: the call itself. *)
Definition start : state * list action :=
  (State ∅ 0 true false false false 0%nat false,
   [ASend name "CREATE_OPEN" open_args]).

(** Lines 201-207. *)
Definition on_open_reply_ev (s : state) (r : reply) : state * list action :=
  if truthy (r_err r)
  then (State (response s) (stat_size s) false (on_stat s)
              (on_request_error s) (on_source_end s) (close_replies s)
              (crashed s),
        [ACall cb [r_err r]])
  else (State (r_response r) (stat_size s) false true
              (on_request_error s) (on_source_end s) (close_replies s)
              (crashed s),
        [AStat local]).

(** Lines 207-230. *)
Definition on_stat_ev (s : state) (err : jsval) (size : Z)
  : state * list action :=
  if truthy err
  then (State (response s) (stat_size s) (on_open_reply s) false
              (on_request_error s) (on_source_end s) (close_replies s)
              (crashed s),
        [ACall cb [err]])
  else match GetFile.url_parse (prop (response s) "path") with
       | None =>
           (State (response s) size (on_open_reply s) false
                  (on_request_error s) (on_source_end s)
                  (close_replies s) true,
            [AUncaught "TypeError"])
       | Some u =>
           (State (response s) size (on_open_reply s) false
                  true true (close_replies s) (crashed s),
            [AHttpPut u size; ACreateReadStream local; APipe])
       end.

(** Lines 224-226. *)
Definition on_request_error_ev (s : state) (e : jsval)
  : state * list action :=
  (s, [ACall cb [e]]).

(** Lines 230-245. *)
Definition on_source_end_ev (s : state) : state * list action :=
  (State (response s) (stat_size s) (on_open_reply s) (on_stat s)
         (on_request_error s) (on_source_end s) (S (close_replies s))
         (crashed s),
   [ARequestEnd; ASend name "CREATE_CLOSE" (close_args (response s))]).

(** Lines 239-244. *)
Definition on_close_reply_ev (s : state) (r : reply) : state * list action :=
  if truthy (r_err r)
  then (s, [ACall cb [r_err r]])
  else (s, [ACall cb [JNull; JNum (stat_size s)]]).

Definition step (s : state) (e : event) : state * list action :=
  if crashed s then (s, []) else
  match e with
  | EvOpenReply r => if on_open_reply s then on_open_reply_ev s r else (s, [])
  | EvStat err size => if on_stat s then on_stat_ev s err size else (s, [])
  | EvRequestError e =>
      if on_request_error s then on_request_error_ev s e else (s, [])
  | EvSourceEnd => if on_source_end s then on_source_end_ev s else (s, [])
  | EvPutResponse _ => (s, [])
  | EvCloseReply r =>
      match close_replies s with
      | O => (s, [])
      | S n =>
          on_close_reply_ev
            (State (response s) (stat_size s) (on_open_reply s) (on_stat s)
                   (on_request_error s) (on_source_end s) n (crashed s)) r
      end
  end.

Fixpoint steps (s : state) (evs : list event)
  : list (state * event * list action) :=
  match evs with
  | [] => []
  | e :: evs' => (s, e, snd (step s e)) :: steps (fst (step s e)) evs'
  end.

Definition calls (s : state) (evs : list event) : list action :=
  concat (map snd (steps s evs)).

(** A whole upload: the call of storeFile followed by the events. *)
Definition upload (evs : list event) : list (state * event * list action) :=
  steps (fst start) evs.

Definition upload_calls (evs : list event) : list action :=
  snd start ++ calls (fst start) evs.

Definition is_close (a : action) : bool :=
  match a with
  | ASend _ cmd _ => String.eqb cmd "CREATE_CLOSE"
  | _ => false
  end.

Definition is_source_end (e : event) : bool :=
  match e with EvSourceEnd => true | _ => false end.

Definition is_put_response (e : event) : bool :=
  match e with EvPutResponse _ => true | _ => false end.

End Handlers.

End StoreFile.

(** ** parseInt on a response field

    [parseInt(response['key_count'])] converts the field to a string and
    reads an integer off its front: leading white space, an optional
    sign, an optional [0x] prefix, then the longest run of digits of the
    radix; NaN when there is no digit.  White space is the ASCII part of
    the set (TAB, LF, VT, FF, CR, space). *)
Definition is_space (c : ascii) : bool :=
  let n := Z.of_N (N_of_ascii c) in
  ((9 <=? n) && (n <=? 13)) || (n =? 32).

Fixpoint strip_spaces (s : string) : string :=
  match s with
  | EmptyString => EmptyString
  | String c s' => if is_space c then strip_spaces s' else s
  end.

Definition digit_value (radix : Z) (c : ascii) : option Z :=
  let n := Z.of_N (N_of_ascii c) in
  let v := if (48 <=? n) && (n <=? 57) then n - 48
           else if (97 <=? n) && (n <=? 122) then n - 87
           else if (65 <=? n) && (n <=? 90) then n - 55
           else radix in
  if v <? radix then Some v else None.

(** The value of the longest run of digits at the front of [s]; [acc] is
    [None] until a digit has been read. *)
Fixpoint int_prefix (radix : Z) (acc : option Z) (s : string) : option Z :=
  match s with
  | EmptyString => acc
  | String c s' =>
      match digit_value radix c with
      | Some d => int_prefix radix (Some (radix * default 0 acc + d)) s'
      | None => acc
      end
  end.

Definition parseInt_string (s : string) : jsnum :=
  let s := strip_spaces s in
  let '(sign, s) :=
    match s with
    | String "-" s' => (-1, s')
    | String "+" s' => (1, s')
    | _ => (1, s)
    end in
  let '(radix, s) :=
    match s with
    | String "0" (String "x" s') => (16, s')
    | String "0" (String "X" s') => (16, s')
    | _ => (10, s)
    end in
  match int_prefix radix None s with
  | Some n => Num (sign * n)
  | None => NaN
  end.

(** [parseInt(v)]: a number reads back as itself through its decimal
    form; [undefined], [null], booleans, NaN, functions and error objects
    have string forms that start with a letter. *)
Definition parseInt (v : jsval) : jsnum :=
  match v with
  | JNum n => Num n
  | JStr s => parseInt_string s
  | _ => NaN
  end.

(** The field values on which [parseInt] above agrees with JavaScript:
    no array, integers below 2^53 in absolute value, and strings whose
    first character after the ASCII white space is an ASCII character (so
    that no Unicode white space is left unread). *)
Definition parseInt_modelled (v : jsval) : bool :=
  match v with
  | JArr _ => false
  | JNum n => Z.abs n <? 2 ^ 53
  | JStr s =>
      match strip_spaces s with
      | EmptyString => true
      | String c _ => Z.of_N (N_of_ascii c) <? 128
      end
      && match parseInt_string s with
         | Num n => Z.abs n <? 2 ^ 53
         | NaN => true
         end
  | _ => true
  end.

(** [a < b] and [a + 1] on numbers. *)
Definition js_lt (a b : jsnum) : bool :=
  match a, b with
  | Num x, Num y => x <? y
  | _, _ => false
  end.

Definition js_succ (a : jsnum) : jsnum :=
  match a with
  | Num x => Num (x + 1)
  | NaN => NaN
  end.

(** ** get_keys: the handler of the reply (lines 262, 266, 273-282) *)
Module KeyList.

(** What [callback] is called with: [(err, response)] on an error (line
    275), [(err, key_list)] otherwise (line 281). *)
Inductive completion : Type :=
| Failed (err : jsval) (response : jsobj)
| Listed (err : jsval) (key_list : list jsval).

(** Lines 278-280: [for (var i = 1; i < parseInt(response['key_count'])+1;
    i++) key_list.push(response[`key_${i}`])]. *)
Fixpoint loop (fuel : nat) (response : jsobj) (i : Z) (key_list : list jsval)
  : option (list jsval) :=
  match fuel with
  | O => None
  | S fuel' =>
      if js_lt (Num i) (js_succ (parseInt (prop response "key_count")))
      then loop fuel' response (i + 1)
                (key_list ++ [prop response ("key_" +:+ pretty i)])
      else Some key_list
  end.

Definition fuel_for (response : jsobj) : nat :=
  match parseInt (prop response "key_count") with
  | Num n => S (Z.to_nat n)
  | NaN => 1%nat
  end.

(** [key_list] is the empty array of line 266 when the handler runs. *)
Definition keys_of (response : jsobj) : option (list jsval) :=
  loop (fuel_for response) response 1 [].

(** The handler of lines 273-282. *)
Definition on_reply (r : reply) : option completion :=
  if truthy (r_err r) then Some (Failed (r_err r) (r_response r))
  else key_list ← keys_of (r_response r); Some (Listed (r_err r) key_list).

(** Line 262: the function the handler calls. *)
Definition callee (callback : jsval) : jsval := js_or callback noop.

End KeyList.

(** ** Measures on runs *)

(** The lengths handed to [stream.write], in order, and their sum. *)
Fixpoint writes (acts : list action) : list Z :=
  match acts with
  | [] => []
  | AStreamWrite len :: acts' => len :: writes acts'
  | _ :: acts' => writes acts'
  end.

Fixpoint sum_lengths (l : list Z) : Z :=
  match l with
  | [] => 0
  | x :: l' => x + sum_lengths l'
  end.

Fixpoint data_lengths (evs : list GetFile.event) : list Z :=
  match evs with
  | [] => []
  | GetFile.EvData len _ :: evs' => len :: data_lengths evs'
  | _ :: evs' => data_lengths evs'
  end.

Definition is_resume (a : action) : bool :=
  match a with AResResume => true | _ => false end.

Definition is_sink_close (a : action) : bool :=
  match a with AStreamEnd => true | _ => false end.

Definition is_uncaught (a : action) : bool :=
  match a with AUncaught _ => true | _ => false end.

Definition is_call (a : action) : bool :=
  match a with ACall _ _ => true | _ => false end.

Definition is_end (e : GetFile.event) : bool :=
  match e with GetFile.EvEnd => true | _ => false end.

Definition is_paths_reply (e : GetFile.event) : bool :=
  match e with GetFile.EvPathsReply _ => true | _ => false end.

Definition is_put (a : action) : bool :=
  match a with AHttpPut _ _ => true | _ => false end.

Definition is_close_reply_ok (e : StoreFile.event) : bool :=
  match e with
  | StoreFile.EvCloseReply r => negb (truthy (r_err r))
  | _ => false
  end.

(** * Sample replies of the tracker *)

Definition reply_two_paths : reply :=
  Reply JNull {[ "paths" := JStr "2";
                 "path1" := JStr "http://10.0.0.1:7500/dev1/0/000/000/0000000001.fid";
                 "path2" := JStr "http://10.0.0.2:7500/dev2/0/000/000/0000000001.fid" ]}.




(** A body of three chunks, two of which saturate the sink. *)
Definition sample_body : list GetFile.chunk :=
  [GetFile.Chunk 65536 false false;
   GetFile.Chunk 65536 true false;
   GetFile.Chunk 1024 false true].

(** The same body on a response that is not complete at either drain. *)
Definition sample_body_resumed : list GetFile.chunk :=
  [GetFile.Chunk 65536 false false;
   GetFile.Chunk 65536 true false;
   GetFile.Chunk 1024 false false].

Definition reply_no_location : reply :=
  Reply JNull {[ "paths" := JStr "0" ]}.

Definition reply_open : reply :=
  Reply JNull {[ "devid" := JStr "95";
                 "fid" := JStr "504917521";
                 "path" := JStr "http://127.0.0.1:7500/dev95/0/504/917/0504917521.fid" ]}.

(** * Case analysis on the handlers *)

Ltac gf_unfold :=
  unfold GetFile.step, GetFile.on_paths_reply, GetFile.on_open,
    GetFile.on_http_response, GetFile.on_data, GetFile.on_get_error_ev,
    GetFile.on_stream_error, GetFile.on_drain, GetFile.finished,
    GetFile.set_paused, GetFile.set_ticks, GetFile.crash in *.

Ltac gf_cases := gf_unfold; repeat case_match; simpl in *.

Ltac sf_unfold :=
  unfold StoreFile.step, StoreFile.on_open_reply_ev, StoreFile.on_stat_ev,
    StoreFile.on_request_error_ev, StoreFile.on_source_end_ev,
    StoreFile.on_close_reply_ev in *.

Ltac sf_cases := sf_unfold; repeat case_match; simpl in *.

(** * Properties *)

(** ** Key operations *)

(** C9: when the second argument of [del] is a function, the DELETE
    request that is sent carries the key and [class = null], and that
    function is the one called on the reply: [del(key, f)] and
    [del(key, null, f)] send the same request and complete through the
    same function. *)
Theorem del_callback_as_second_argument (name : string) (key third : jsval) (f : string) :
  Del.request name key (JFun f) third
  = ASend name "DELETE" {[ "key" := key; "class" := JNull ]}
  /\ Del.request name key JNull (JFun f)
     = ASend name "DELETE" {[ "key" := key; "class" := JNull ]}
  /\ (forall r,
        Del.on_reply (JFun f) third r
        = [ACall (JFun f) (if truthy (r_err r) then [r_err r] else [])])
  /\ (forall r,
        Del.on_reply JNull (JFun f) r
        = [ACall (JFun f) (if truthy (r_err r) then [r_err r] else [])]).
Proof.
  repeat split; try reflexivity;
    intros r; unfold Del.on_reply; by destruct (truthy (r_err r)).
Qed.

(** C10: the list_keys request that [get_keys] sends carries [after = 0]
    when [lastKey] is omitted or falsy, and [limit = 100] when [limit] is
    omitted or falsy, an explicit 0 included; the prefix is sent as
    given. *)
Theorem get_keys_defaults (name : string) (prefix lastKey limit : jsval) :
  (truthy lastKey = false ->
   exists args : jsobj,
     GetKeys.request name prefix lastKey limit = ASend name "list_keys" args
     /\ args !! "after" = Some (JNum 0)
     /\ args !! "prefix" = Some prefix)
  /\ (truthy limit = false ->
      exists args : jsobj,
        GetKeys.request name prefix lastKey limit = ASend name "list_keys" args
        /\ args !! "limit" = Some (JNum 100)
        /\ args !! "prefix" = Some prefix)
  /\ GetKeys.request name prefix JUndefined JUndefined
     = ASend name "list_keys"
         {[ "prefix" := prefix; "after" := JNum 0; "limit" := JNum 100 ]}
  /\ GetKeys.request name prefix lastKey (JNum 0)
     = ASend name "list_keys"
         {[ "prefix" := prefix;
            "after" := if truthy lastKey then lastKey else JNum 0;
            "limit" := JNum 100 ]}.
Proof.
  unfold GetKeys.request, GetKeys.args, js_or. repeat split.
  - intros ->. eexists. repeat split; reflexivity.
  - intros ->. eexists. repeat split; reflexivity.
Qed.

Lemma get_keys_defaults_witness :
  GetKeys.request "images" (JStr "img/") JNull (JStr "")
  = ASend "images" "list_keys"
      {[ "prefix" := JStr "img/"; "after" := JNum 0; "limit" := JNum 100 ]}.
Proof.
  destruct (get_keys_defaults "images" (JStr "img/") JNull (JStr ""))
    as (Ha & _ & _ & _).
  destruct (Ha eq_refl) as (args & Hreq & _ & _).
  rewrite Hreq. vm_compute in Hreq. inversion Hreq. vm_compute. reflexivity.
Defined.

(** ** Path resolution *)

Lemma loop_exits (response : jsobj) (n : Z) :
  ToNumber (prop response "paths") = Num n ->
  forall (k : nat) (i : Z) (acc : list jsval) (fuel : nat),
    i + Z.of_nat k = n + 1 ->
    (k < fuel)%nat ->
    GetPaths.loop fuel response i acc
    = Some (acc ++ map (fun j => prop response ("path" +:+ pretty j))
                       (seqZ i (Z.of_nat k))).
Proof.
  intros Hn k. induction k as [|k IH]; intros i acc fuel Hi Hfuel.
  - destruct fuel as [|fuel]; [lia|].
    rewrite seqZ_nil by lia. simpl. rewrite Hn. simpl.
    replace (i <=? n) with false by lia. by rewrite app_nil_r.
  - destruct fuel as [|fuel]; [lia|]. simpl GetPaths.loop. rewrite Hn. simpl js_le.
    replace (i <=? n) with true by lia.
    rewrite (IH (i + 1)) by lia.
    rewrite (seqZ_cons i (Z.of_nat (S k))) by lia.
    replace (Z.pred (Z.of_nat (S k))) with (Z.of_nat k) by lia.
    replace (Z.succ i) with (i + 1) by lia.
    simpl. by rewrite <- app_assoc.
Qed.

(** The loop of lines 52-54 leaves by its own test within [fuel_for]
    tests, and collects the numbered fields in order. *)
Lemma paths_of_numbered (response : jsobj) :
  GetPaths.paths_of response = Some (GetPaths.numbered response).
Proof.
  unfold GetPaths.paths_of, GetPaths.numbered, GetPaths.fuel_for.
  destruct (ToNumber (prop response "paths")) as [|n] eqn:Hn.
  - simpl. by rewrite Hn.
  - destruct (Z_lt_le_dec n 0) as [Hneg|Hpos].
    + replace (Z.to_nat n) with 0%nat by lia. simpl. rewrite Hn. simpl.
      replace (1 <=? n) with false by lia. by rewrite seqZ_nil by lia.
    + rewrite (loop_exits response n Hn (Z.to_nat n)) by lia.
      simpl. by rewrite Z2Nat.id by lia.
Qed.

Lemma on_reply_total (r : reply) :
  GetPaths.on_reply r
  = Some (if truthy (r_err r) then [r_err r]
          else [JNull; JArr (GetPaths.numbered (r_response r))]).
Proof.
  unfold GetPaths.on_reply. destruct (truthy (r_err r)); [done|].
  by rewrite paths_of_numbered.
Qed.




(** ** Download *)

Section Download.

Variable name : string.
Variable key : jsval.
Variable local : string.
Variable callback : jsval.

Local Abbreviation step := (GetFile.step local callback).
Local Abbreviation calls := (GetFile.calls local callback).
Local Abbreviation cb := (GetFile.cb callback).

Lemma gf_calls_cons (s : GetFile.state) (e : GetFile.event) (evs : list GetFile.event) :
calls s (e :: evs) = snd (step s e) ++ calls (fst (step s e)) evs.
Proof. reflexivity. Qed.

Lemma gf_steps_in (evs : list GetFile.event) :
forall s0 s e acts,
  In (s, e, acts) (GetFile.steps local callback s0 evs) -> acts = snd (step s e).
Proof.
induction evs as [|e0 evs IH]; intros s0 s e acts Hin; [destruct Hin|].
destruct Hin as [Heq|Hin]; [by inversion Heq|]. by eapply IH.
Qed.

(** No handler of getFile talks to the tracker. *)
Lemma gf_step_no_send (s : GetFile.state) (e : GetFile.event) :
Forall (fun a => is_send a = false) (snd (step s e)).
Proof. destruct e; gf_cases; repeat constructor. Qed.

Lemma gf_calls_no_send (evs : list GetFile.event) :
forall s, Forall (fun a => is_send a = false) (calls s evs).
Proof.
induction evs as [|e evs IH]; intros s; [constructor|].
rewrite gf_calls_cons. apply Forall_app. split; [apply gf_step_no_send|apply IH].
Qed.

(** The sink is closed by the end-of-data path only in a state that is
  not suspended; the other handler that closes it is the one of the
  request's 'error'. *)
Lemma gf_close_only_unpaused (s : GetFile.state) (e : GetFile.event) :
In AStreamEnd (snd (step s e)) ->
GetFile.paused s = false \/ GetFile.is_get_error e = true.
Proof.
destruct e; gf_cases; intros Hin; auto;
  repeat (destruct Hin as [Hin|Hin]; try discriminate); try done; auto.
Qed.

(** A success is reported right after the sink is closed, never alone. *)
Lemma gf_success_closes (s : GetFile.state) (e : GetFile.event) :
existsb is_success (snd (step s e)) = true ->
snd (step s e) = [AStreamEnd; ACall cb [JNull; JNum (GetFile.bytes_written s)]].
Proof.
destruct e; gf_cases; intros Hin; try discriminate; try done.
all: match type of Hin with
     | context [match ?x with _ => _ end] => destruct x; discriminate
     end.
Qed.

(** While [paused] is set, the end-of-data handler and every queued
  re-check only queue another re-check. *)
Lemma gf_end_deferred (s : GetFile.state) :
GetFile.crashed s = false ->
GetFile.paused s = true ->
(GetFile.on_res s = true ->
 step s GetFile.EvEnd
 = (GetFile.set_ticks (S (GetFile.ticks s)) s, [ANextTick]))
/\ (forall n, GetFile.ticks s = S n -> step s GetFile.EvTick = (s, [ANextTick])).
Proof.
intros Hc Hp. destruct s; simpl in *; subst. split.
- intros ->. reflexivity.
- intros n ->. reflexivity.
Qed.

(** The calls made for a body delivered as [pump] describes, from a state
  in which the response is being read and the sink is not suspended. *)
Lemma gf_pump_calls (cs : list GetFile.chunk) :
forall bw p op orq oge t tail,
  calls (GetFile.State bw false true p op true orq oge true t false)
        (GetFile.pump cs ++ tail)
  = concat (map GetFile.chunk_calls cs)
    ++ calls (GetFile.State (bw + GetFile.total cs) false true p op true
                            orq oge true t false) tail.
Proof.
induction cs as [|[len drained complete] cs IH]; intros.
- simpl. by rewrite Z.add_0_r.
- cbn [GetFile.pump GetFile.total map concat GetFile.c_len
       GetFile.c_drained GetFile.c_complete].
  rewrite <- app_comm_cons, gf_calls_cons.
  destruct drained.
  + unfold GetFile.step, GetFile.on_data.
    cbn [GetFile.crashed GetFile.on_res GetFile.bytes_written
         GetFile.paused GetFile.response GetFile.paths GetFile.on_paths
         GetFile.on_stream GetFile.on_response GetFile.on_get_error
         GetFile.ticks fst snd app].
    rewrite IH, Z.add_assoc. reflexivity.
  + rewrite <- app_assoc, <- app_comm_cons, gf_calls_cons.
    unfold GetFile.step, GetFile.on_data, GetFile.on_drain,
      GetFile.set_paused.
    cbn [GetFile.crashed GetFile.on_res GetFile.bytes_written
         GetFile.paused GetFile.response GetFile.paths GetFile.on_paths
         GetFile.on_stream GetFile.on_response GetFile.on_get_error
         GetFile.ticks fst snd app].
    rewrite IH, Z.add_assoc.
    destruct complete; reflexivity.
Qed.

(** One pause per saturating write. *)
Lemma gf_pauses_counted (cs : list GetFile.chunk) :
length (List.filter GetFile.is_pause (concat (map GetFile.chunk_calls cs)))
= GetFile.saturations cs.
Proof.
unfold GetFile.saturations.
induction cs as [|[len drained complete] cs IH]; [reflexivity|].
cbn [map concat]. rewrite List.filter_app, length_app, IH.
destruct drained, complete; reflexivity.
Qed.

(** Once the path list is empty no response is ever read: the 'open'
  handler stops at [url.parse(paths[0])], so [finished] never runs. *)
Lemma gf_no_location_step (s : GetFile.state) (e : GetFile.event) :
GetFile.paths s = JArr [] /\ GetFile.on_paths s = false
/\ GetFile.on_response s = false /\ GetFile.on_res s = false
/\ GetFile.ticks s = 0%nat ->
(GetFile.paths (fst (step s e)) = JArr []
 /\ GetFile.on_paths (fst (step s e)) = false
 /\ GetFile.on_response (fst (step s e)) = false
 /\ GetFile.on_res (fst (step s e)) = false
 /\ GetFile.ticks (fst (step s e)) = 0%nat)
/\ existsb is_success (snd (step s e)) = false.
Proof.
intros (Hp & Hop & Hor & Hres & Ht). destruct s; simpl in *; subst.
destruct e; gf_cases; simplify_eq; try done.
all: match goal with
     | |- context [match ?x with _ => _ end] => destruct x; done
     end.
Qed.

Lemma gf_no_location_calls (evs : list GetFile.event) :
forall s,
  GetFile.paths s = JArr [] /\ GetFile.on_paths s = false
  /\ GetFile.on_response s = false /\ GetFile.on_res s = false
  /\ GetFile.ticks s = 0%nat ->
  existsb is_success (calls s evs) = false.
Proof.
induction evs as [|e evs IH]; intros s Hs; [reflexivity|].
destruct (gf_no_location_step s e Hs) as [Hs' Hno].
rewrite gf_calls_cons, existsb_app, Hno, (IH _ Hs'). reflexivity.
Qed.

(** No handler closes the HTTP exchange from the client side. *)
Lemma gf_step_no_abort (s : GetFile.state) (e : GetFile.event) :
~ In AReqAbort (snd (step s e)).
Proof.
destruct e; gf_cases; intros Hin;
  repeat (destruct Hin as [Hin|Hin]; try discriminate); done.
Qed.

End Download.

(** C5 (as amended): every download asks the tracker for the paths of
    [key] exactly once, first thing, with [noverify = '0'] (getFile
    passes [0] for [noverify], line 126): verification is left enabled. *)
Theorem getFile_resolves_with_noverify_0
    (name : string) (key : jsval) (local : string) (callback : jsval)
    (evs : list GetFile.event) :
  GetFile.download_calls name key local callback evs
  = ASend name "GET_PATHS" {[ "key" := key; "noverify" := JStr "0" ]}
    :: GetFile.calls local callback (fst (GetFile.start name key)) evs
  /\ Forall (fun a => is_send a = false)
            (GetFile.calls local callback (fst (GetFile.start name key)) evs).
Proof.
  split; [reflexivity|]. apply gf_calls_no_send.
Qed.

(** C5 as stated fails: the GET_PATHS request of a download carries
    [noverify = '0'], not ['1']. *)
Lemma getFile_request_has_noverify_0 :
  exists args,
    GetFile.download_calls "images" (JStr "cat.jpg") "/tmp/cat.jpg" (JFun "done") []
    = [ASend "images" "GET_PATHS" args]
    /\ args !! "noverify" = Some (JStr "0")
    /\ args !! "noverify" <> Some (JStr "1").
Proof.
  eexists. split; [reflexivity|]. split; [reflexivity|discriminate].
Qed.

(** C4 (as amended): when path resolution yields zero locations,
    [getPaths] hands the download path a successful empty list, and
    [getFile] reports no error for it: it goes on to create the local
    file.  Since the 'open' handler then stops at [url.parse(paths[0])],
    no byte count is ever reported for such a key. *)
Theorem getFile_zero_locations
    (name : string) (key : jsval) (local : string) (callback : jsval)
    (r : reply) :
  truthy (r_err r) = false ->
  ToNumber_modelled (prop (r_response r) "paths") = true ->
  GetPaths.paths_of (r_response r) = Some [] ->
  GetPaths.on_reply r = Some [JNull; JArr []]
  /\ (forall evs,
        exists rest,
          GetFile.download_calls name key local callback
            (GetFile.EvPathsReply r :: evs)
          = GetPaths.request name key (JNum 0)
            :: ACreateWriteStream local :: rest)
  /\ (forall evs,
        existsb is_success
          (GetFile.download_calls name key local callback
             (GetFile.EvPathsReply r :: evs)) = false)
  /\ (forall s,
        GetFile.paths s = JArr [] -> GetFile.crashed s = false ->
        GetFile.on_stream s = true ->
        snd (GetFile.step local callback s GetFile.EvOpen)
        = [AUncaught "TypeError"]).
Proof.
  intros Herr _ Hnone.
  assert (Hrep : GetPaths.on_reply r = Some [JNull; JArr []]).
  { unfold GetPaths.on_reply. by rewrite Herr, Hnone. }
  split; [exact Hrep|].
  assert (Hstep : GetFile.step local callback (fst (GetFile.start name key))
                    (GetFile.EvPathsReply r)
                  = (GetFile.State 0 false false (JArr []) false true false
                                   false false 0%nat false,
                     [ACreateWriteStream local])).
  { unfold GetFile.step, GetFile.on_paths_reply. simpl. by rewrite Hrep. }
  split; [|split].
  - intros evs. eexists. unfold GetFile.download_calls.
    rewrite gf_calls_cons, Hstep. reflexivity.
  - intros evs. unfold GetFile.download_calls.
    rewrite gf_calls_cons, Hstep. simpl.
    apply gf_no_location_calls. simpl. done.
  - intros s Hp Hc Hs. unfold GetFile.step, GetFile.on_open.
    by rewrite Hc, Hs, Hp.
Qed.

Lemma getFile_zero_locations_witness :
  GetPaths.on_reply reply_no_location = Some [JNull; JArr []]
  /\ existsb is_success
       (GetFile.download_calls "images" (JStr "cat.jpg") "/tmp/cat.jpg"
          (JFun "done")
          [GetFile.EvPathsReply reply_no_location; GetFile.EvOpen]) = false.
Proof.
  destruct (getFile_zero_locations "images" (JStr "cat.jpg") "/tmp/cat.jpg"
              (JFun "done") reply_no_location eq_refl eq_refl eq_refl)
    as (H1 & _ & H3 & _).
  split; [exact H1 | exact (H3 [GetFile.EvOpen])].
Defined.

(** C4 as stated fails: for a reply with zero locations the callback of
    [getPaths] receives [(null, [])], and the first thing [getFile] does
    with it is to create the local file; no error is reported. *)
Lemma getFile_zero_locations_goes_on :
  GetPaths.on_reply reply_no_location = Some [JNull; JArr []]
  /\ GetFile.download_calls "images" (JStr "cat.jpg") "/tmp/cat.jpg" (JFun "done")
       [GetFile.EvPathsReply reply_no_location]
     = [GetPaths.request "images" (JStr "cat.jpg") (JNum 0);
        ACreateWriteStream "/tmp/cat.jpg"].
Proof. split; vm_compute; reflexivity. Qed.

(** C1 (as amended): when end-of-data arrives while [paused] is set, the
    handler neither closes the sink nor reports a byte count: it queues a
    re-check with [process.nextTick], and every re-check that finds
    [paused] still set only queues the next one.  The end-of-data path
    closes the sink, and reports the count, only in a state in which
    [paused] is not set; end-of-data that arrives in such a state closes
    and reports at once.  The handler of the request's 'error' event
    closes the sink whether or not [paused] is set. *)
Theorem getFile_end_waits_for_drain
    (name : string) (key : jsval) (local : string) (callback : jsval) :
  (forall s,
      GetFile.crashed s = false -> GetFile.paused s = true ->
      GetFile.on_res s = true ->
      GetFile.step local callback s GetFile.EvEnd
      = (GetFile.set_ticks (S (GetFile.ticks s)) s, [ANextTick]))
  /\ (forall s n,
        GetFile.crashed s = false -> GetFile.paused s = true ->
        GetFile.ticks s = S n ->
        GetFile.step local callback s GetFile.EvTick = (s, [ANextTick]))
  /\ (forall evs s e acts,
        In (s, e, acts) (GetFile.download name key local callback evs) ->
        In AStreamEnd acts ->
        GetFile.is_get_error e = false ->
        GetFile.paused s = false)
  /\ (forall s,
        GetFile.crashed s = false -> GetFile.paused s = false ->
        GetFile.on_res s = true ->
        GetFile.step local callback s GetFile.EvEnd
        = (s, [AStreamEnd;
               ACall (GetFile.cb callback)
                     [JNull; JNum (GetFile.bytes_written s)]]))
  /\ (forall s e,
        GetFile.crashed s = false -> GetFile.on_get_error s = true ->
        GetFile.paused s = true ->
        GetFile.step local callback s (GetFile.EvGetError e)
        = (s, [AStreamEnd; ACall (GetFile.cb callback) [e]])).
Proof.
  repeat split.
  - intros s Hc Hp Hr. by apply gf_end_deferred.
  - intros s n Hc Hp Ht. by eapply gf_end_deferred.
  - intros evs s e acts Hin Hend Hne.
    apply gf_steps_in in Hin. subst acts.
    destruct (gf_close_only_unpaused local callback s e Hend); congruence.
  - intros s Hc Hp Hr. unfold GetFile.step, GetFile.finished.
    by rewrite Hc, Hr, Hp.
  - intros s e Hc Hg _. unfold GetFile.step. by rewrite Hc, Hg.
Qed.

Lemma getFile_end_waits_for_drain_witness :
  GetFile.paused
    (GetFile.State 65536 false true
       (JArr [JStr "http://10.0.0.1:7500/dev1/0/000/000/0000000001.fid";
              JStr "http://10.0.0.2:7500/dev2/0/000/000/0000000001.fid"])
       false true false true true 0%nat false) = false
  /\ GetFile.step "/tmp/cat.jpg" (JFun "done")
       (GetFile.State 65536 true true
          (JArr [JStr "http://10.0.0.1:7500/dev1/0/000/000/0000000001.fid";
                 JStr "http://10.0.0.2:7500/dev2/0/000/000/0000000001.fid"])
          false true false true true 0%nat false)
       GetFile.EvEnd
     = (GetFile.State 65536 true true
          (JArr [JStr "http://10.0.0.1:7500/dev1/0/000/000/0000000001.fid";
                 JStr "http://10.0.0.2:7500/dev2/0/000/000/0000000001.fid"])
          false true false true true 1%nat false,
        [ANextTick]).
Proof.
  destruct (getFile_end_waits_for_drain "images" (JStr "cat.jpg")
              "/tmp/cat.jpg" (JFun "done")) as (Hdefer & _ & H & _ & _).
  split.
  - apply (H [GetFile.EvPathsReply reply_two_paths; GetFile.EvOpen;
              GetFile.EvResponse; GetFile.EvData 65536 true; GetFile.EvEnd]
             _ GetFile.EvEnd
             [AStreamEnd; ACall (JFun "done") [JNull; JNum 65536]]).
    + do 4 right. left. reflexivity.
    + left. reflexivity.
    + reflexivity.
  - apply Hdefer; reflexivity.
Defined.

(** C1 as stated fails: a transport error that arrives while the sink is
    suspended closes the sink at once. *)
Lemma getFile_error_closes_suspended_sink :
  exists s,
    nth_error
      (GetFile.download "images" (JStr "cat.jpg") "/tmp/cat.jpg" (JFun "done")
         [GetFile.EvPathsReply reply_two_paths; GetFile.EvOpen;
          GetFile.EvResponse; GetFile.EvData 65536 false;
          GetFile.EvGetError (JErr "ECONNRESET")]) 4
    = Some (s, GetFile.EvGetError (JErr "ECONNRESET"),
            [AStreamEnd; ACall (JFun "done") [JErr "ECONNRESET"]])
    /\ GetFile.paused s = true.
Proof.
  exists (GetFile.State 65536 true true
            (JArr [JStr "http://10.0.0.1:7500/dev1/0/000/000/0000000001.fid";
                   JStr "http://10.0.0.2:7500/dev2/0/000/000/0000000001.fid"])
            false true false true true 0%nat false).
  split; reflexivity.
Qed.

Lemma gf_resumed_cycles (cs : list GetFile.chunk) :
  GetFile.resumed_body cs = true ->
  map GetFile.chunk_calls cs = map GetFile.cycle_calls cs
  /\ length (List.filter is_resume (concat (map GetFile.cycle_calls cs)))
     = GetFile.saturations cs.
Proof.
  unfold GetFile.saturations.
  induction cs as [|[len drained complete] cs IH]; intros Hres; [done|].
  simpl in Hres. apply andb_true_iff in Hres as [Hc Hres].
  destruct (IH Hres) as [IH1 IH2]. cbn [map concat].
  rewrite IH1, List.filter_app, length_app, IH2.
  destruct drained, complete; try discriminate; done.
Qed.

(** C3 (as amended): a write that does not complete synchronously pauses
    the source, and the 'drain' that follows, when it finds the response
    not yet complete, clears [paused] and resumes the source.  For a body
    of any number N of such cycles (one pause and one resume per
    saturating write) followed by end-of-data, the download closes the
    sink and reports the sum of the lengths received, whatever N is.  The
    lengths are not negative and their sum is below 2^53. *)
Theorem getFile_backpressure
    (name : string) (key : jsval) (local : string) (callback : jsval)
    (r : reply) (u : string) (others : list jsval) (cs : list GetFile.chunk) :
  GetPaths.on_reply r = Some [JNull; JArr (JStr u :: others)] ->
  GetFile.url_modelled u = true ->
  GetFile.resumed_body cs = true ->
  GetFile.exact_lengths (map GetFile.c_len cs) = true ->
  GetFile.download_calls name key local callback
    (GetFile.EvPathsReply r :: GetFile.EvOpen :: GetFile.EvResponse
       :: GetFile.pump cs ++ [GetFile.EvEnd])
  = [GetPaths.request name key (JNum 0); ACreateWriteStream local; AHttpGet u]
    ++ concat (map GetFile.cycle_calls cs)
    ++ [AStreamEnd;
        ACall (GetFile.cb callback) [JNull; JNum (GetFile.total cs)]]
  /\ length (List.filter GetFile.is_pause
                (concat (map GetFile.cycle_calls cs)))
     = GetFile.saturations cs
  /\ length (List.filter is_resume
                (concat (map GetFile.cycle_calls cs)))
     = GetFile.saturations cs.
Proof.
  intros Hrep _ Hres _.
  destruct (gf_resumed_cycles cs Hres) as [Hmap Hresumes].
  rewrite <- Hmap at 1 2.
  split; [|split; [apply gf_pauses_counted | exact Hresumes]].
  unfold GetFile.download_calls.
  rewrite !gf_calls_cons.
  assert (H1 : GetFile.step local callback (fst (GetFile.start name key))
                 (GetFile.EvPathsReply r)
               = (GetFile.State 0 false false (JArr (JStr u :: others)) false
                                true false false false 0%nat false,
                  [ACreateWriteStream local])).
  { unfold GetFile.step, GetFile.on_paths_reply. simpl. by rewrite Hrep. }
  rewrite H1. cbn [fst snd].
  change (GetFile.step local callback
            (GetFile.State 0 false false (JArr (JStr u :: others)) false true
                           false false false 0%nat false) GetFile.EvOpen)
    with (GetFile.State 0 false false (JArr (JStr u :: others)) false true
                        true true false 0%nat false, [AHttpGet u]).
  cbn [fst snd].
  change (GetFile.step local callback
            (GetFile.State 0 false false (JArr (JStr u :: others)) false true
                           true true false 0%nat false) GetFile.EvResponse)
    with (GetFile.State 0 false true (JArr (JStr u :: others)) false true
                        false true true 0%nat false, @nil action).
  cbn [fst snd].
  rewrite gf_pump_calls. reflexivity.
Qed.

Lemma getFile_backpressure_witness :
  GetFile.saturations sample_body_resumed = 2%nat
  /\ GetFile.download_calls "images" (JStr "cat.jpg") "/tmp/cat.jpg" (JFun "done")
       (GetFile.EvPathsReply reply_two_paths :: GetFile.EvOpen
          :: GetFile.EvResponse
          :: GetFile.pump sample_body_resumed ++ [GetFile.EvEnd])
     = [GetPaths.request "images" (JStr "cat.jpg") (JNum 0);
        ACreateWriteStream "/tmp/cat.jpg";
        AHttpGet "http://10.0.0.1:7500/dev1/0/000/000/0000000001.fid";
        AStreamWrite 65536; AResPause; AResResume;
        AStreamWrite 65536;
        AStreamWrite 1024; AResPause; AResResume;
        AStreamEnd; ACall (JFun "done") [JNull; JNum 132096]].
Proof.
  split; [reflexivity|].
  exact (proj1 (getFile_backpressure "images" (JStr "cat.jpg") "/tmp/cat.jpg"
                  (JFun "done") reply_two_paths _ _ sample_body_resumed
                  eq_refl eq_refl eq_refl eq_refl)).
Defined.

(** C3 as stated fails: when the sink drains after the response is
    complete, [paused] is cleared but the source is not resumed. *)
Lemma getFile_drain_without_resume :
  GetFile.download_calls "images" (JStr "cat.jpg") "/tmp/cat.jpg" (JFun "done")
    [GetFile.EvPathsReply reply_two_paths; GetFile.EvOpen; GetFile.EvResponse;
     GetFile.EvData 65536 false; GetFile.EvDrain true]
  = [GetPaths.request "images" (JStr "cat.jpg") (JNum 0);
     ACreateWriteStream "/tmp/cat.jpg";
     AHttpGet "http://10.0.0.1:7500/dev1/0/000/000/0000000001.fid";
     AStreamWrite 65536; AResPause]
  /\ GetFile.paused
       (GetFile.final "/tmp/cat.jpg" (JFun "done")
          (fst (GetFile.start "images" (JStr "cat.jpg")))
          [GetFile.EvPathsReply reply_two_paths; GetFile.EvOpen;
           GetFile.EvResponse; GetFile.EvData 65536 false;
           GetFile.EvDrain true]) = false.
Proof. split; vm_compute; reflexivity. Qed.

(** C6 (as amended): a transport-level error (the request's 'error'
    event) closes the sink and reports the error alone, with no byte
    count; a success is reported only right after the sink is closed.  A
    sink error is reported alone as well.  No handler of a download closes
    the HTTP exchange from the client side. *)
Theorem getFile_exit_paths (local : string) (callback : jsval) :
  (forall s e,
      GetFile.crashed s = false -> GetFile.on_get_error s = true ->
      GetFile.step local callback s (GetFile.EvGetError e)
      = (s, [AStreamEnd; ACall (GetFile.cb callback) [e]]))
  /\ (forall s e,
        existsb is_success (snd (GetFile.step local callback s e)) = true ->
        snd (GetFile.step local callback s e)
        = [AStreamEnd;
           ACall (GetFile.cb callback) [JNull; JNum (GetFile.bytes_written s)]])
  /\ (forall s e,
        GetFile.crashed s = false -> GetFile.on_stream s = true ->
        GetFile.step local callback s (GetFile.EvStreamError e)
        = (s, [ACall (GetFile.cb callback) [e]]))
  /\ (forall s e, ~ In AReqAbort (snd (GetFile.step local callback s e))).
Proof.
  repeat split.
  - intros s e Hc Hg. unfold GetFile.step. by rewrite Hc, Hg.
  - intros s e. apply gf_success_closes.
  - intros s e Hc Hs. unfold GetFile.step. by rewrite Hc, Hs.
  - apply gf_step_no_abort.
Qed.

Lemma getFile_exit_paths_witness :
  GetFile.step "/tmp/cat.jpg" (JFun "done")
    (GetFile.State 65536 true true (JArr [JStr "http://10.0.0.1:7500/a.fid"])
                   false true false true true 0%nat false)
    (GetFile.EvGetError (JErr "ECONNRESET"))
  = (GetFile.State 65536 true true (JArr [JStr "http://10.0.0.1:7500/a.fid"])
                   false true false true true 0%nat false,
     [AStreamEnd; ACall (JFun "done") [JErr "ECONNRESET"]])
  /\ GetFile.step "/tmp/cat.jpg" (JFun "done")
       (GetFile.State 65536 true true (JArr [JStr "http://10.0.0.1:7500/a.fid"])
                      false true false true true 0%nat false)
       (GetFile.EvStreamError (JErr "ENOSPC"))
     = (GetFile.State 65536 true true (JArr [JStr "http://10.0.0.1:7500/a.fid"])
                      false true false true true 0%nat false,
        [ACall (JFun "done") [JErr "ENOSPC"]]).
Proof.
  destruct (getFile_exit_paths "/tmp/cat.jpg" (JFun "done")) as (Hg & _ & Hs & _).
  split; [apply Hg | apply Hs]; reflexivity.
Defined.

(** C6 as stated fails: a download that ends on a sink error reports the
    error and closes neither the sink nor the HTTP exchange. *)
Lemma getFile_sink_error_closes_nothing :
  GetFile.download_calls "images" (JStr "cat.jpg") "/tmp/cat.jpg" (JFun "done")
    [GetFile.EvPathsReply reply_two_paths; GetFile.EvOpen; GetFile.EvResponse;
     GetFile.EvData 65536 true; GetFile.EvStreamError (JErr "ENOSPC")]
  = [GetPaths.request "images" (JStr "cat.jpg") (JNum 0);
     ACreateWriteStream "/tmp/cat.jpg";
     AHttpGet "http://10.0.0.1:7500/dev1/0/000/000/0000000001.fid";
     AStreamWrite 65536;
     ACall (JFun "done") [JErr "ENOSPC"]].
Proof. vm_compute; reflexivity. Qed.

(** ** Upload *)

Section Upload.

Variable name : string.
Variables key storage_class : jsval.
Variable local : string.
Variable callback : jsval.

Local Abbreviation step := (StoreFile.step name key storage_class local callback).
Local Abbreviation calls := (StoreFile.calls name key storage_class local callback).
Local Abbreviation close_of :=
(fun response => ASend name "CREATE_CLOSE"
                   (StoreFile.close_args key storage_class response)).

Lemma sf_calls_cons (s : StoreFile.state) (e : StoreFile.event) (evs : list StoreFile.event) :
calls s (e :: evs) = snd (step s e) ++ calls (fst (step s e)) evs.
Proof. reflexivity. Qed.

(** CREATE_CLOSE is sent by the handler of the source's 'end' and by no
  other. *)
Lemma sf_close_only_at_end (s : StoreFile.state) (e : StoreFile.event) (a : action) :
In a (snd (step s e)) -> StoreFile.is_close a = true ->
e = StoreFile.EvSourceEnd.
Proof.
destruct e; sf_cases; intros Hin Hc; try done;
  repeat (destruct Hin as [Hin|Hin]; try subst a; try discriminate); done.
Qed.

(** What one event adds to the CREATE_CLOSE requests of a run. *)
Lemma sf_step_closes (s : StoreFile.state) (e : StoreFile.event) :
List.filter StoreFile.is_close (snd (step s e))
= if StoreFile.is_source_end e && StoreFile.on_source_end s
     && negb (StoreFile.crashed s)
  then [close_of (StoreFile.response s)] else [].
Proof.
destruct e; sf_cases; try reflexivity; try discriminate.
rewrite andb_false_r in *. discriminate.
Qed.

Lemma sf_calls_closes (s : StoreFile.state) (e : StoreFile.event) (evs : list StoreFile.event) :
List.filter StoreFile.is_close (calls s (e :: evs))
= List.filter StoreFile.is_close (snd (step s e))
  ++ List.filter StoreFile.is_close (calls (fst (step s e)) evs).
Proof. by rewrite sf_calls_cons, List.filter_app. Qed.

(** Once CREATE_OPEN has been answered its response is never rebound. *)
Lemma sf_response_kept (s : StoreFile.state) (e : StoreFile.event) :
StoreFile.on_open_reply s = false ->
StoreFile.on_open_reply (fst (step s e)) = false
/\ StoreFile.response (fst (step s e)) = StoreFile.response s.
Proof. intros Ho. destruct e; sf_cases; try done; congruence. Qed.

(** Every CREATE_CLOSE of a run carries the identifiers of the answered
  CREATE_OPEN, and there are no more of them than 'end' events. *)
Lemma sf_closes_echo (evs : list StoreFile.event) :
forall s,
  StoreFile.on_open_reply s = false ->
  exists m : nat,
    (m <= length (List.filter StoreFile.is_source_end evs))%nat
    /\ List.filter StoreFile.is_close (calls s evs)
       = repeat (close_of (StoreFile.response s)) m.
Proof.
induction evs as [|e evs IH]; intros s Ho.
- exists 0%nat. split; [simpl; lia | reflexivity].
- destruct (sf_response_kept s e Ho) as [Ho' Hr].
  destruct (IH _ Ho') as (m & Hm & Hcl).
  rewrite sf_calls_closes, Hcl, Hr, sf_step_closes.
  destruct e; simpl;
    try (exists m; split; [lia | reflexivity]).
  destruct (StoreFile.on_source_end s && negb (StoreFile.crashed s)).
  + exists (S m). split; [lia | reflexivity].
  + exists m. split; [lia | reflexivity].
Qed.

(** A handler of line 239 is waiting only if its request has been sent. *)
Lemma sf_reply_needs_close (s : StoreFile.state) (e : StoreFile.event) :
StoreFile.close_replies (fst (step s e)) <> 0%nat ->
StoreFile.close_replies s <> 0%nat
\/ List.filter StoreFile.is_close (snd (step s e)) <> [].
Proof.
destruct e; sf_cases; intros Hn; auto; try lia; try (right; discriminate).
Qed.

Lemma sf_success_needs_reply (s : StoreFile.state) (e : StoreFile.event) :
existsb is_success (snd (step s e)) = true ->
StoreFile.close_replies s <> 0%nat.
Proof.
destruct e; sf_cases; intros Hs; try discriminate; try lia.
all: match type of Hs with
     | context [match ?x with _ => _ end] => destruct x; discriminate
     end.
Qed.

(** Success is reported only by a run that has sent CREATE_CLOSE. *)
Lemma sf_success_needs_close (evs : list StoreFile.event) :
forall s,
  existsb is_success (calls s evs) = true ->
  StoreFile.close_replies s <> 0%nat
  \/ List.filter StoreFile.is_close (calls s evs) <> [].
Proof.
induction evs as [|e evs IH]; intros s Hs; [discriminate|].
rewrite sf_calls_cons, existsb_app in Hs.
apply orb_true_iff in Hs as [Hs|Hs].
- left. by eapply sf_success_needs_reply.
- rewrite sf_calls_closes.
  destruct (IH _ Hs) as [Hn|Hn].
  + destruct (sf_reply_needs_close s e Hn) as [H|H]; [by left|right].
    intros Heq. by apply app_eq_nil in Heq as [? _].
  + right. intros Heq. by apply app_eq_nil in Heq as [_ ?].
Qed.

(** An upload whose CREATE_OPEN or [stat] failed never sends
  CREATE_CLOSE. *)
Lemma sf_no_close_after_failure (evs : list StoreFile.event) :
forall s,
  StoreFile.on_open_reply s = false -> StoreFile.on_stat s = false ->
  StoreFile.on_source_end s = false ->
  List.filter StoreFile.is_close (calls s evs) = [].
Proof.
induction evs as [|e evs IH]; intros s Ho Ht He; [reflexivity|].
rewrite sf_calls_closes, sf_step_closes, He, andb_false_r. simpl.
apply IH; destruct e; sf_cases; congruence.
Qed.

End Upload.

(** C2 (as amended): when the source is exhausted the handler finalises
    the request body and sends CREATE_CLOSE to the tracker in the same
    turn, right after [request.end()]; CREATE_CLOSE is sent by no other
    handler, and the answer of the storage node to the PUT has no handler:
    nothing waits for it. *)
Theorem storeFile_close_follows_source_end
    (name : string) (key storage_class : jsval) (local : string)
    (callback : jsval) :
  (forall s,
      StoreFile.crashed s = false -> StoreFile.on_source_end s = true ->
      snd (StoreFile.step name key storage_class local callback s
             StoreFile.EvSourceEnd)
      = [ARequestEnd;
         ASend name "CREATE_CLOSE"
           (StoreFile.close_args key storage_class (StoreFile.response s))])
  /\ (forall s status,
        StoreFile.step name key storage_class local callback s
          (StoreFile.EvPutResponse status) = (s, []))
  /\ (forall s e a,
        In a (snd (StoreFile.step name key storage_class local callback s e)) ->
        StoreFile.is_close a = true ->
        e = StoreFile.EvSourceEnd).
Proof.
  repeat split.
  - intros s Hc He. unfold StoreFile.step. by rewrite Hc, He.
  - intros s status. unfold StoreFile.step. by destruct (StoreFile.crashed s).
  - apply sf_close_only_at_end.
Qed.

Lemma storeFile_close_follows_source_end_witness :
  snd (StoreFile.step "images" (JStr "cat.jpg") (JStr "thumbs") "/tmp/cat.jpg"
         (JFun "done")
         (StoreFile.State (r_response reply_open) 4096 false false true true
                          0%nat false)
         StoreFile.EvSourceEnd)
  = [ARequestEnd;
     ASend "images" "CREATE_CLOSE"
       (StoreFile.close_args (JStr "cat.jpg") (JStr "thumbs")
          (r_response reply_open))].
Proof.
  destruct (storeFile_close_follows_source_end "images" (JStr "cat.jpg")
              (JStr "thumbs") "/tmp/cat.jpg" (JFun "done")) as (H & _ & _).
  apply H; reflexivity.
Defined.

(** C2 as stated fails: an upload succeeds, CREATE_CLOSE included, in a
    run in which the storage node never answers the PUT. *)
Lemma storeFile_closes_without_acknowledgement :
  existsb StoreFile.is_put_response
    [StoreFile.EvOpenReply reply_open; StoreFile.EvStat JNull 4096;
     StoreFile.EvSourceEnd; StoreFile.EvCloseReply (Reply JNull ∅)] = false
  /\ StoreFile.upload_calls "images" (JStr "cat.jpg") (JStr "thumbs")
       "/tmp/cat.jpg" (JFun "done")
       [StoreFile.EvOpenReply reply_open; StoreFile.EvStat JNull 4096;
        StoreFile.EvSourceEnd; StoreFile.EvCloseReply (Reply JNull ∅)]
     = [ASend "images" "CREATE_OPEN"
          (StoreFile.open_args (JStr "cat.jpg") (JStr "thumbs"));
        AStat "/tmp/cat.jpg";
        AHttpPut "http://127.0.0.1:7500/dev95/0/504/917/0504917521.fid" 4096;
        ACreateReadStream "/tmp/cat.jpg"; APipe;
        ARequestEnd;
        ASend "images" "CREATE_CLOSE"
          (StoreFile.close_args (JStr "cat.jpg") (JStr "thumbs")
             (r_response reply_open));
        ACall (JFun "done") [JNull; JNum 4096]].
Proof. split; vm_compute; reflexivity. Qed.

(** C7: in every upload that reports success, under the stream contract
    that the source emits 'end' at most once, exactly one CREATE_CLOSE is
    sent, and it carries the original key and class together with the
    [devid], [fid] and [path] of the CREATE_OPEN response, unchanged. *)
Theorem storeFile_close_echoes_open
    (name : string) (key storage_class : jsval) (local : string)
    (callback : jsval) (r : reply) (evs : list StoreFile.event) :
  (length (List.filter StoreFile.is_source_end evs) <= 1)%nat ->
  existsb is_success
    (StoreFile.upload_calls name key storage_class local callback
       (StoreFile.EvOpenReply r :: evs)) = true ->
  List.filter StoreFile.is_close
    (StoreFile.upload_calls name key storage_class local callback
       (StoreFile.EvOpenReply r :: evs))
  = [ASend name "CREATE_CLOSE"
       {[ "key" := key;
          "class" := storage_class;
          "devid" := prop (r_response r) "devid";
          "fid" := prop (r_response r) "fid";
          "path" := prop (r_response r) "path" ]}].
Proof.
  intros Hend Hok. unfold StoreFile.upload_calls in *.
  rewrite sf_calls_cons in *.
  change (snd (StoreFile.start name key storage_class))
    with [ASend name "CREATE_OPEN" (StoreFile.open_args key storage_class)] in *.
  unfold StoreFile.step, StoreFile.on_open_reply_ev in *.
  cbn [StoreFile.start fst snd StoreFile.crashed StoreFile.on_open_reply] in *.
  destruct (truthy (r_err r)) eqn:Herr; cbn [fst snd] in *.
  - exfalso.
    cbn [app existsb is_success orb] in Hok.
    assert (Hs : existsb is_success
                   (StoreFile.calls name key storage_class local callback
                      (StoreFile.State ∅ 0 false false false false 0%nat false)
                      evs) = true).
    { destruct (r_err r); simpl in Hok; try discriminate; exact Hok. }
    apply sf_success_needs_close in Hs as [Hs|Hs]; [by apply Hs|].
    apply Hs. by apply sf_no_close_after_failure.
  - cbn [app existsb is_success orb] in Hok.
    cbn [app List.filter StoreFile.is_close String.eqb].
    destruct (sf_closes_echo name key storage_class local callback evs
                (StoreFile.State (r_response r) 0 false true false false
                                 0%nat false) eq_refl) as (m & Hm & Hcl).
    apply sf_success_needs_close in Hok as [Hok|Hok]; [by exfalso; apply Hok|].
    simpl. rewrite Hcl in *.
    destruct m as [|[|m]]; [by exfalso; apply Hok | reflexivity | lia].
Qed.

Lemma storeFile_close_echoes_open_witness :
  List.filter StoreFile.is_close
    (StoreFile.upload_calls "images" (JStr "cat.jpg") (JStr "thumbs")
       "/tmp/cat.jpg" (JFun "done")
       [StoreFile.EvOpenReply reply_open; StoreFile.EvStat JNull 4096;
        StoreFile.EvSourceEnd; StoreFile.EvPutResponse 201;
        StoreFile.EvCloseReply (Reply JNull ∅)])
  = [ASend "images" "CREATE_CLOSE"
       {[ "key" := JStr "cat.jpg";
          "class" := JStr "thumbs";
          "devid" := JStr "95";
          "fid" := JStr "504917521";
          "path" := JStr "http://127.0.0.1:7500/dev95/0/504/917/0504917521.fid" ]}].
Proof.
  apply (storeFile_close_echoes_open "images" (JStr "cat.jpg") (JStr "thumbs")
           "/tmp/cat.jpg" (JFun "done") reply_open
           [StoreFile.EvStat JNull 4096; StoreFile.EvSourceEnd;
            StoreFile.EvPutResponse 201;
            StoreFile.EvCloseReply (Reply JNull ∅)]).
  - simpl. lia.
  - vm_compute. reflexivity.
Defined.


(** * Further properties *)

(** ** Decimal counts *)

Lemma digit_of_char (d : N) :
  (d < 10)%N -> digit_of (pretty_N_char d) = Some (Z.of_N d).
Proof.
  intros Hd.
  assert (d = 0 \/ d = 1 \/ d = 2 \/ d = 3 \/ d = 4 \/ d = 5 \/ d = 6
          \/ d = 7 \/ d = 8 \/ d = 9)%N as H by lia.
  repeat (destruct H as [->|H]; [reflexivity|]). by subst.
Qed.

Lemma parse_digits_go (x : N) :
  forall s, parse_digits 0 (pretty_N_go x s) = parse_digits (Z.of_N x) s.
Proof.
  induction (N.lt_wf_0 x) as [x _ IH]; intros s.
  assert (x = 0 \/ 0 < x)%N as [->|Hpos] by lia; [reflexivity|].
  rewrite pretty_N_go_step by done.
  rewrite IH by (by apply N.div_lt).
  cbn [parse_digits]. rewrite digit_of_char by (by apply N.mod_lt).
  f_equal. rewrite (N.div_mod x 10) at 3 by done. lia.
Qed.

Lemma digit_value_char (d : N) :
  (d < 10)%N -> digit_value 10 (pretty_N_char d) = Some (Z.of_N d).
Proof.
  intros Hd.
  assert (d = 0 \/ d = 1 \/ d = 2 \/ d = 3 \/ d = 4 \/ d = 5 \/ d = 6
          \/ d = 7 \/ d = 8 \/ d = 9)%N as H by lia.
  repeat (destruct H as [->|H]; [reflexivity|]). by subst.
Qed.

Lemma int_prefix_go (x : N) :
  (0 < x)%N ->
  forall s, int_prefix 10 None (pretty_N_go x s)
            = int_prefix 10 (Some (Z.of_N x)) s.
Proof.
  induction (N.lt_wf_0 x) as [x _ IH]; intros Hpos s.
  rewrite pretty_N_go_step by done.
  assert (Hdm : (x = 10 * (x `div` 10) + x `mod` 10)%N) by (by apply N.div_mod).
  destruct (N.eq_0_gt_0_cases (x `div` 10)) as [H0|Hq].
  - rewrite H0, pretty_N_go_0. cbn [int_prefix].
    rewrite digit_value_char by (by apply N.mod_lt). cbn [default from_option id].
    do 2 f_equal. lia.
  - rewrite IH by (done || by apply N.div_lt).
    cbn [int_prefix]. rewrite digit_value_char by (by apply N.mod_lt).
    cbn [default from_option id]. do 2 f_equal. lia.
Qed.

(** The decimal form of a positive number starts with one of the digits
    1 to 9. *)
Lemma pretty_go_first_char (x : N) :
  (0 < x)%N ->
  forall s, exists d s',
      pretty_N_go x s = String (pretty_N_char d) s' /\ (0 < d < 10)%N.
Proof.
  induction (N.lt_wf_0 x) as [x _ IH]; intros Hpos s.
  rewrite pretty_N_go_step by done.
  destruct (N.eq_0_gt_0_cases (x `div` 10)) as [H0|Hq].
  - rewrite H0, pretty_N_go_0. exists (x `mod` 10)%N, s. split; [done|].
    assert (x `mod` 10 < 10)%N by (by apply N.mod_lt).
    assert (x = 10 * (x `div` 10) + x `mod` 10)%N by (by apply N.div_mod).
    lia.
  - apply IH; [by apply N.div_lt | done].
Qed.

Lemma parseInt_string_digit_first (d : N) (s : string) :
  (0 < d < 10)%N ->
  parseInt_string (String (pretty_N_char d) s)
  = match int_prefix 10 None (String (pretty_N_char d) s) with
    | Some n => Num n
    | None => NaN
    end
  /\ parseInt_string (String "-" (String (pretty_N_char d) s))
     = match int_prefix 10 None (String (pretty_N_char d) s) with
       | Some n => Num (- n)
       | None => NaN
       end.
Proof.
  intros Hd.
  assert (d = 1 \/ d = 2 \/ d = 3 \/ d = 4 \/ d = 5 \/ d = 6
          \/ d = 7 \/ d = 8 \/ d = 9)%N as H by lia.
  repeat (destruct H as [->|H]); subst;
    (split; unfold parseInt_string; cbn [strip_spaces is_space pretty_N_char];
     simpl; destruct (int_prefix 10 _ s) as [n|]; try reflexivity;
     f_equal; lia).
Qed.

(** A count written in decimal is read back as the number it denotes, by
    the conversion of [getPaths] (for counts from 0 on) and by the
    [parseInt] of [get_keys] (for every integer). *)
Lemma decimal_count_round_trip (n : Z) :
  (0 <= n -> ToNumber (JStr (pretty n)) = Num n)
  /\ parseInt (JStr (pretty n)) = Num n.
Proof.
  split.
  - intros Hn. unfold ToNumber. destruct n as [|p|p]; [reflexivity| |lia].
    change (pretty (Z.pos p)) with (pretty_N_go (N.pos p) "").
    rewrite parse_digits_go. reflexivity.
  - unfold parseInt. destruct n as [|p|p]; [reflexivity| |].
    + change (pretty (Z.pos p)) with (pretty_N_go (N.pos p) "").
      destruct (pretty_go_first_char (N.pos p) eq_refl "") as (d & s' & Hs & Hd).
      rewrite Hs. rewrite (proj1 (parseInt_string_digit_first d s' Hd)).
      rewrite <- Hs, int_prefix_go by done. reflexivity.
    + change (pretty (Z.neg p)) with ("-" +:+ pretty_N_go (N.pos p) "").
      destruct (pretty_go_first_char (N.pos p) eq_refl "") as (d & s' & Hs & Hd).
      rewrite Hs. change ("-" +:+ String (pretty_N_char d) s')
        with (String "-" (String (pretty_N_char d) s')).
      rewrite (proj2 (parseInt_string_digit_first d s' Hd)).
      rewrite <- Hs, int_prefix_go by done. reflexivity.
Qed.

(** ** Path resolution, continued *)

(** X1: for a reply without error whose count field is the decimal form
    of [n], [getPaths] hands its callback exactly [n] paths, and the path
    at (0-based) position [k] is the field [path(k+1)] of the response
    ([undefined] when the response has no such field). *)
Theorem getPaths_indexed (r : reply) (n : Z) :
  0 <= n < 2 ^ 53 ->
  truthy (r_err r) = false ->
  prop (r_response r) "paths" = JStr (pretty n) ->
  exists paths : list jsval,
    GetPaths.on_reply r = Some [JNull; JArr paths]
    /\ length paths = Z.to_nat n
    /\ forall k : nat,
        (k < Z.to_nat n)%nat ->
        paths !! k
        = Some (prop (r_response r) ("path" +:+ pretty (Z.of_nat k + 1))).
Proof.
  intros Hn Herr Hcount. eexists. rewrite on_reply_total, Herr.
  split; [reflexivity|]. unfold GetPaths.numbered.
  rewrite Hcount, (proj1 (decimal_count_round_trip n)) by lia.
  split.
  - by rewrite length_map, length_seqZ.
  - intros k Hk.
    change (map ?f ?l) with (f <$> l).
    rewrite list_lookup_fmap, lookup_seqZ_lt by lia.
    replace (1 + Z.of_nat k) with (Z.of_nat k + 1) by lia. reflexivity.
Qed.

Lemma getPaths_indexed_witness :
  exists paths : list jsval,
    GetPaths.on_reply reply_two_paths = Some [JNull; JArr paths]
    /\ length paths = 2%nat
    /\ forall k : nat,
        (k < 2)%nat ->
        paths !! k
        = Some (prop (r_response reply_two_paths)
                     ("path" +:+ pretty (Z.of_nat k + 1))).
Proof.
  apply (getPaths_indexed reply_two_paths 2); [lia | reflexivity | reflexivity].
Defined.

Lemma prop_insert_ne (m : jsobj) (k k' : string) (v : jsval) :
  k <> k' -> prop (<[k:=v]> m) k' = prop m k'.
Proof. intros Hne. unfold prop. by rewrite lookup_insert_ne. Qed.

(** X2: the result of [getPaths] depends on the count field and on the
    fields [path1 .. pathN] only: adding or changing any other field of
    the response, a [path] field numbered beyond the count included,
    changes nothing. *)
Theorem getPaths_ignores_other_fields
    (err : jsval) (response : jsobj) (n : Z) (k : string) (v : jsval) :
  ToNumber (prop response "paths") = Num n ->
  k <> "paths" ->
  (forall i, 1 <= i <= n -> k <> "path" +:+ pretty i) ->
  GetPaths.on_reply (Reply err (<[k:=v]> response))
  = GetPaths.on_reply (Reply err response).
Proof.
  intros Hn Hk Hpaths. rewrite !on_reply_total. cbn [r_err r_response].
  destruct (truthy err); [reflexivity|]. do 4 f_equal.
  unfold GetPaths.numbered. rewrite prop_insert_ne, Hn by done.
  apply map_ext_in. intros i Hi. apply prop_insert_ne, Hpaths.
  apply list_elem_of_In, elem_of_seqZ in Hi. lia.
Qed.

Lemma getPaths_ignores_other_fields_witness :
  GetPaths.on_reply
    (Reply JNull (<["path3" := JStr "http://10.0.0.3:7500/dev3/0/000/000/0000000001.fid"]>
                    (r_response reply_two_paths)))
  = GetPaths.on_reply (Reply JNull (r_response reply_two_paths)).
Proof.
  apply (getPaths_ignores_other_fields JNull (r_response reply_two_paths) 2).
  - reflexivity.
  - discriminate.
  - intros i Hi. assert (i = 1 \/ i = 2) as [->| ->] by lia; discriminate.
Defined.

(** ** Key listing *)

Lemma keys_loop_exits (response : jsobj) (n : Z) :
  parseInt (prop response "key_count") = Num n ->
  forall (k : nat) (i : Z) (acc : list jsval) (fuel : nat),
    i + Z.of_nat k = n + 1 ->
    (k < fuel)%nat ->
    KeyList.loop fuel response i acc
    = Some (acc ++ map (fun j => prop response ("key_" +:+ pretty j))
                       (seqZ i (Z.of_nat k))).
Proof.
  intros Hn k. induction k as [|k IH]; intros i acc fuel Hi Hfuel.
  - destruct fuel as [|fuel]; [lia|].
    rewrite seqZ_nil by lia. simpl. rewrite Hn. simpl.
    replace (i <? n + 1) with false by lia. by rewrite app_nil_r.
  - destruct fuel as [|fuel]; [lia|]. simpl KeyList.loop. rewrite Hn.
    cbn [js_lt js_succ]. replace (i <? n + 1) with true by lia.
    rewrite (IH (i + 1)) by lia.
    rewrite (seqZ_cons i (Z.of_nat (S k))) by lia.
    replace (Z.pred (Z.of_nat (S k))) with (Z.of_nat k) by lia.
    replace (Z.succ i) with (i + 1) by lia.
    simpl. by rewrite <- app_assoc.
Qed.

Lemma keys_of_numbered (response : jsobj) :
  KeyList.keys_of response
  = Some match parseInt (prop response "key_count") with
         | Num n => map (fun i => prop response ("key_" +:+ pretty i)) (seqZ 1 n)
         | NaN => []
         end.
Proof.
  unfold KeyList.keys_of, KeyList.fuel_for.
  destruct (parseInt (prop response "key_count")) as [|n] eqn:Hn.
  - simpl. by rewrite Hn.
  - destruct (Z_lt_le_dec n 0) as [Hneg|Hpos].
    + replace (Z.to_nat n) with 0%nat by lia. simpl. rewrite Hn. simpl.
      replace (1 <? n + 1) with false by lia. by rewrite seqZ_nil by lia.
    + rewrite (keys_loop_exits response n Hn (Z.to_nat n)) by lia.
      simpl. by rewrite Z2Nat.id by lia.
Qed.

(** X3: on a reply without error, [get_keys] hands its callback the
    fields [key_1 .. key_N] of the response in order, for [N] the integer
    that [parseInt] reads off the front of [key_count]; the first argument
    of the callback is the falsy [err] it received, as it is. *)
Theorem get_keys_lists_numbered_keys (r : reply) :
  truthy (r_err r) = false ->
  parseInt_modelled (prop (r_response r) "key_count") = true ->
  KeyList.on_reply r
  = Some (KeyList.Listed (r_err r)
            match parseInt (prop (r_response r) "key_count") with
            | Num n =>
                map (fun i => prop (r_response r) ("key_" +:+ pretty i))
                    (seqZ 1 n)
            | NaN => []
            end).
Proof.
  intros Herr _. unfold KeyList.on_reply.
  by rewrite Herr, keys_of_numbered.
Qed.

Lemma get_keys_lists_numbered_keys_witness :
  KeyList.on_reply
    (Reply JUndefined {[ "key_count" := JStr "2 keys";
                         "key_1" := JStr "img/a.jpg";
                         "key_2" := JStr "img/b.jpg";
                         "next_after" := JStr "img/b.jpg" ]})
  = Some (KeyList.Listed JUndefined [JStr "img/a.jpg"; JStr "img/b.jpg"]).
Proof.
  exact (get_keys_lists_numbered_keys
           (Reply JUndefined {[ "key_count" := JStr "2 keys";
                                "key_1" := JStr "img/a.jpg";
                                "key_2" := JStr "img/b.jpg";
                                "next_after" := JStr "img/b.jpg" ]})
           eq_refl eq_refl).
Defined.

(** X4: on a reply without error whose [key_count] is in the modelled
    fragment and is missing, has no leading digits, or denotes zero or
    less, [get_keys] reports the empty list through the success path; when
    the tracker reports an error, the callback receives the error together
    with the response, and no key is read. *)
Theorem get_keys_empty_and_error (r : reply) :
  (truthy (r_err r) = false ->
   parseInt_modelled (prop (r_response r) "key_count") = true ->
   match parseInt (prop (r_response r) "key_count") with
   | Num n => n <= 0
   | NaN => True
   end ->
   KeyList.on_reply r = Some (KeyList.Listed (r_err r) []))
  /\ (truthy (r_err r) = true ->
      KeyList.on_reply r = Some (KeyList.Failed (r_err r) (r_response r))).
Proof.
  unfold KeyList.on_reply. split.
  - intros -> _ Hc. rewrite keys_of_numbered.
    destruct (parseInt _) as [|n]; [reflexivity|].
    by rewrite seqZ_nil by lia.
  - by intros ->.
Qed.

Lemma get_keys_empty_and_error_witness :
  KeyList.on_reply (Reply JNull {[ "key_count" := JStr "0" ]})
  = Some (KeyList.Listed JNull [])
  /\ KeyList.on_reply (Reply (JErr "no_domain") ∅)
     = Some (KeyList.Failed (JErr "no_domain") ∅).
Proof.
  split.
  - apply (proj1 (get_keys_empty_and_error
                    (Reply JNull {[ "key_count" := JStr "0" ]})));
      [reflexivity | reflexivity | vm_compute; discriminate].
  - apply (proj2 (get_keys_empty_and_error (Reply (JErr "no_domain") ∅))).
    reflexivity.
Defined.

(** ** Download, continued *)

Lemma split_in_app {A : Type} (l1 l2 pre post : list A) (x : A) :
  l1 ++ l2 = pre ++ x :: post ->
  (exists post1, l1 = pre ++ x :: post1 /\ post = post1 ++ l2)
  \/ (exists pre2, pre = l1 ++ pre2 /\ l2 = pre2 ++ x :: post).
Proof.
  revert pre. induction l1 as [|a l1 IH]; intros pre Heq.
  - right. exists pre. by split.
  - destruct pre as [|b pre]; simpl in Heq.
    + inversion Heq; subst. left. by exists l1.
    + inversion Heq as [[Hab Hrest]]. subst b.
      destruct (IH _ Hrest) as [(post1 & -> & ->)|(pre2 & -> & ->)].
      * left. by exists post1.
      * right. by exists pre2.
Qed.

Lemma writes_app (a b : list action) : writes (a ++ b) = writes a ++ writes b.
Proof.
  induction a as [|x a IH]; [reflexivity|].
  destruct x; simpl; rewrite ?IH; reflexivity.
Qed.

Lemma sum_lengths_app (a b : list Z) :
  sum_lengths (a ++ b) = sum_lengths a + sum_lengths b.
Proof. induction a as [|x a IH]; simpl; lia. Qed.

Section DownloadRuns.

Variable local : string.
Variable callback : jsval.

Local Abbreviation step := (GetFile.step local callback).
Local Abbreviation calls := (GetFile.calls local callback).
Local Abbreviation cb := (GetFile.cb callback).

(** [bytes_written] grows by what the handler hands to [stream.write]. *)
Lemma gf_step_bytes (s : GetFile.state) (e : GetFile.event) :
  GetFile.bytes_written (fst (step s e))
  = GetFile.bytes_written s + sum_lengths (writes (snd (step s e))).
Proof. destruct e; gf_cases; lia. Qed.

Lemma gf_step_success_at (s : GetFile.state) (e : GetFile.event)
    (pre post : list action) (f : jsval) (n : Z) :
  snd (step s e) = pre ++ ACall f [JNull; JNum n] :: post ->
  n = GetFile.bytes_written s /\ writes pre = [].
Proof.
  intros Heq.
  assert (Hs : existsb is_success (snd (step s e)) = true).
  { rewrite Heq, existsb_app. simpl. by rewrite orb_true_r. }
  rewrite (gf_success_closes local callback s e Hs) in Heq.
  destruct pre as [|a [|b pre]]; simplify_eq/=; [done|].
  by destruct pre.
Qed.

Lemma gf_calls_success_at (evs : list GetFile.event) :
  forall s pre post f n,
    calls s evs = pre ++ ACall f [JNull; JNum n] :: post ->
    n = GetFile.bytes_written s + sum_lengths (writes pre).
Proof.
  induction evs as [|e evs IH]; intros s pre post f n Heq.
  - by destruct pre.
  - rewrite gf_calls_cons in Heq.
    apply split_in_app in Heq as [(post1 & Hacts & _)|(pre2 & -> & Hrest)].
    + apply gf_step_success_at in Hacts as [-> ->]. simpl. lia.
    + apply IH in Hrest. rewrite Hrest, gf_step_bytes, writes_app, sum_lengths_app.
      lia.
Qed.

(** A state with no handler left does nothing. *)
Lemma gf_inert (evs : list GetFile.event) :
  forall s,
    GetFile.on_paths s = false -> GetFile.on_stream s = false ->
    GetFile.on_response s = false -> GetFile.on_get_error s = false ->
    GetFile.on_res s = false -> GetFile.ticks s = 0%nat ->
    calls s evs = [].
Proof.
  induction evs as [|e evs IH]; intros s H1 H2 H3 H4 H5 H6; [reflexivity|].
  assert (Hstep : step s e = (s, [])).
  { unfold GetFile.step. rewrite H1, H2, H3, H4, H5, H6.
    destruct (GetFile.crashed s), e; reflexivity. }
  rewrite gf_calls_cons, Hstep. simpl. by apply IH.
Qed.

(** Once the first path is a string and the tracker's reply has been
    taken, no handler raises and every GET goes to that path. *)
Lemma gf_healthy_step (u : string) (others : list jsval)
    (s : GetFile.state) (e : GetFile.event) :
  GetFile.paths s = JArr (JStr u :: others) ->
  GetFile.on_paths s = false ->
  GetFile.crashed s = false ->
  implb (GetFile.paused s) (GetFile.response s) = true ->
  implb (GetFile.on_res s) (GetFile.response s) = true ->
  (GetFile.paths (fst (step s e)) = JArr (JStr u :: others)
   /\ GetFile.on_paths (fst (step s e)) = false
   /\ GetFile.crashed (fst (step s e)) = false
   /\ implb (GetFile.paused (fst (step s e)))
            (GetFile.response (fst (step s e))) = true
   /\ implb (GetFile.on_res (fst (step s e)))
            (GetFile.response (fst (step s e))) = true)
  /\ existsb is_uncaught (snd (step s e)) = false
  /\ (forall v, In (AHttpGet v) (snd (step s e)) -> v = u)
  /\ (GetFile.on_res s = true ->
      GetFile.on_res (fst (step s e)) = true
      /\ writes (snd (step s e)) = data_lengths [e]).
Proof.
  intros Hp Hop Hc Hpr Hrr. destruct s; simpl in *; subst.
  destruct e; gf_cases; simplify_eq/=;
    repeat split; try done;
    try (intros v Hv; repeat destruct Hv as [Hv|Hv]; by simplify_eq);
    try (by destruct paused); try (by destruct on_res).
Qed.

Lemma gf_healthy_calls (u : string) (others : list jsval)
    (evs : list GetFile.event) :
  forall s,
    GetFile.paths s = JArr (JStr u :: others) ->
    GetFile.on_paths s = false ->
    GetFile.crashed s = false ->
    implb (GetFile.paused s) (GetFile.response s) = true ->
    implb (GetFile.on_res s) (GetFile.response s) = true ->
    existsb is_uncaught (calls s evs) = false
    /\ (forall v, In (AHttpGet v) (calls s evs) -> v = u)
    /\ (GetFile.on_res s = true -> writes (calls s evs) = data_lengths evs).
Proof.
  induction evs as [|e evs IH]; intros s Hp Hop Hc Hpr Hrr; [done|].
  destruct (gf_healthy_step u others s e Hp Hop Hc Hpr Hrr)
    as ((Hp' & Hop' & Hc' & Hpr' & Hrr') & Hun & Hget & Hw).
  destruct (IH _ Hp' Hop' Hc' Hpr' Hrr') as (IH1 & IH2 & IH3).
  rewrite gf_calls_cons. repeat split.
  - by rewrite existsb_app, Hun, IH1.
  - intros v Hv. apply in_app_or in Hv as [Hv|Hv]; auto.
  - intros Hres. destruct (Hw Hres) as [Hres' Hwe].
    rewrite writes_app, Hwe, (IH3 Hres'). by destruct e.
Qed.

(** The source is resumed only after it has been paused. *)
Lemma gf_step_resumes (s : GetFile.state) (e : GetFile.event) :
  (length (List.filter is_resume (snd (step s e)))
   + (if GetFile.paused (fst (step s e)) then 1 else 0)
   <= length (List.filter GetFile.is_pause (snd (step s e)))
      + (if GetFile.paused s then 1 else 0))%nat.
Proof. destruct s, e; gf_cases; simplify_eq/=; lia. Qed.

Lemma gf_calls_resumes (evs : list GetFile.event) :
  forall s,
    (length (List.filter is_resume (calls s evs))
     <= length (List.filter GetFile.is_pause (calls s evs))
        + (if GetFile.paused s then 1 else 0))%nat.
Proof.
  induction evs as [|e evs IH]; intros s; [simpl; lia|].
  rewrite gf_calls_cons, !List.filter_app, !length_app.
  pose proof (gf_step_resumes s e). pose proof (IH (fst (step s e))). lia.
Qed.

(** One report, and one close by the end-of-data path, per 'end'. *)
Lemma gf_step_reports (s : GetFile.state) (e : GetFile.event) :
  (length (List.filter is_success (snd (step s e)))
   + GetFile.ticks (fst (step s e))
   <= GetFile.ticks s + (if is_end e then 1 else 0))%nat
  /\ (length (List.filter is_sink_close (snd (step s e)))
      + GetFile.ticks (fst (step s e))
      <= GetFile.ticks s + (if is_end e then 1 else 0)
         + (if GetFile.is_get_error e then 1 else 0))%nat.
Proof.
  destruct s, e; gf_cases; simplify_eq/=; try lia.
  all: match goal with
       | |- context [ACall _ [?x]] => destruct x; simpl; lia
       end.
Qed.

Lemma gf_calls_reports (evs : list GetFile.event) :
  forall s,
    (length (List.filter is_success (calls s evs))
     <= GetFile.ticks s + length (List.filter is_end evs))%nat
    /\ (length (List.filter is_sink_close (calls s evs))
        <= GetFile.ticks s + length (List.filter is_end evs)
           + length (List.filter GetFile.is_get_error evs))%nat.
Proof.
  induction evs as [|e evs IH]; intros s; [simpl; lia|].
  rewrite gf_calls_cons, !List.filter_app, !length_app.
  destruct (gf_step_reports s e) as [H1 H2].
  destruct (IH (fst (step s e))) as [IH1 IH2].
  cbn [List.filter]. destruct e; simpl in *; lia.
Qed.

End DownloadRuns.

(** X5: on every download whose chunks have lengths that are not
    negative and sum to less than 2^53, whatever the order of events, a
    byte count reported to the callback equals the sum of the lengths
    handed to [stream.write] before that call. *)
Theorem getFile_reports_what_it_wrote
    (name : string) (key : jsval) (local : string) (callback : jsval)
    (evs : list GetFile.event) (pre post : list action) (f : jsval) (n : Z) :
  GetFile.exact_lengths (data_lengths evs) = true ->
  GetFile.download_calls name key local callback evs
  = pre ++ ACall f [JNull; JNum n] :: post ->
  n = sum_lengths (writes pre).
Proof.
  intros _.
  unfold GetFile.download_calls. cbn [GetFile.start snd fst app].
  intros Heq. destruct pre as [|a pre]; [discriminate|].
  inversion Heq as [[Ha Hrest]]. subst a.
  apply gf_calls_success_at in Hrest. simpl in *. lia.
Qed.

Lemma getFile_reports_what_it_wrote_witness :
  132096 = sum_lengths
             (writes [GetPaths.request "images" (JStr "cat.jpg") (JNum 0);
                      ACreateWriteStream "/tmp/cat.jpg";
                      AHttpGet "http://10.0.0.1:7500/dev1/0/000/000/0000000001.fid";
                      AStreamWrite 65536; AResPause; AResResume;
                      AStreamWrite 65536;
                      AStreamWrite 1024; AResPause; AResResume;
                      AStreamEnd]).
Proof.
  apply (getFile_reports_what_it_wrote "images" (JStr "cat.jpg") "/tmp/cat.jpg"
           (JFun "done")
           (GetFile.EvPathsReply reply_two_paths :: GetFile.EvOpen
              :: GetFile.EvResponse
              :: GetFile.pump sample_body_resumed ++ [GetFile.EvEnd])
           _ [] (JFun "done")).
  - reflexivity.
  - vm_compute. reflexivity.
Defined.

(** X6: when the tracker answers GET_PATHS with an error, the download
    calls back with that error alone and does nothing else, whatever
    happens afterwards: no local file is created and no request is made. *)
Theorem getFile_resolution_error
    (name : string) (key : jsval) (local : string) (callback : jsval)
    (r : reply) (evs : list GetFile.event) :
  truthy (r_err r) = true ->
  GetFile.download_calls name key local callback (GetFile.EvPathsReply r :: evs)
  = [GetPaths.request name key (JNum 0);
     ACall (GetFile.cb callback) [r_err r]].
Proof.
  intros Herr. unfold GetFile.download_calls. rewrite gf_calls_cons.
  assert (Hstep : GetFile.step local callback (fst (GetFile.start name key))
                    (GetFile.EvPathsReply r)
                  = (GetFile.State 0 false false JUndefined false false false
                                   false false 0%nat false,
                     [ACall (GetFile.cb callback) [r_err r]])).
  { unfold GetFile.step, GetFile.on_paths_reply. simpl.
    rewrite on_reply_total, Herr. simpl. by rewrite Herr. }
  rewrite Hstep. cbn [fst snd]. by rewrite gf_inert.
Qed.

Lemma getFile_resolution_error_witness :
  GetFile.download_calls "images" (JStr "cat.jpg") "/tmp/cat.jpg" (JFun "done")
    [GetFile.EvPathsReply (Reply (JErr "unknown_key") ∅); GetFile.EvOpen;
     GetFile.EvEnd]
  = [GetPaths.request "images" (JStr "cat.jpg") (JNum 0);
     ACall (JFun "done") [JErr "unknown_key"]].
Proof.
  exact (getFile_resolution_error "images" (JStr "cat.jpg") "/tmp/cat.jpg"
           (JFun "done") (Reply (JErr "unknown_key") ∅)
           [GetFile.EvOpen; GetFile.EvEnd] eq_refl).
Defined.

(** X7: until the tracker has answered GET_PATHS a download does nothing
    but wait: no other event has a handler yet. *)
Theorem getFile_waits_for_tracker
    (name : string) (key : jsval) (local : string) (callback : jsval)
    (evs : list GetFile.event) :
  existsb is_paths_reply evs = false ->
  GetFile.download_calls name key local callback evs
  = [GetPaths.request name key (JNum 0)].
Proof.
  intros Hno. unfold GetFile.download_calls. cbn [GetFile.start fst snd].
  f_equal. induction evs as [|e evs IH]; [reflexivity|].
  simpl in Hno. apply orb_false_iff in Hno as [He Hno].
  rewrite gf_calls_cons. destruct e; try discriminate; simpl; by apply IH.
Qed.

Lemma getFile_waits_for_tracker_witness :
  GetFile.download_calls "images" (JStr "cat.jpg") "/tmp/cat.jpg" (JFun "done")
    [GetFile.EvOpen; GetFile.EvData 10 true; GetFile.EvEnd; GetFile.EvTick]
  = [GetPaths.request "images" (JStr "cat.jpg") (JNum 0)].
Proof.
  exact (getFile_waits_for_tracker "images" (JStr "cat.jpg") "/tmp/cat.jpg"
           (JFun "done")
           [GetFile.EvOpen; GetFile.EvData 10 true; GetFile.EvEnd; GetFile.EvTick]
           eq_refl).
Defined.

Lemma gf_after_reply
    (name : string) (key : jsval) (local : string) (callback : jsval)
    (r : reply) (u : string) (others : list jsval) :
  GetPaths.on_reply r = Some [JNull; JArr (JStr u :: others)] ->
  GetFile.step local callback (fst (GetFile.start name key))
    (GetFile.EvPathsReply r)
  = (GetFile.State 0 false false (JArr (JStr u :: others)) false true false
                   false false 0%nat false,
     [ACreateWriteStream local]).
Proof.
  intros Hrep. unfold GetFile.step, GetFile.on_paths_reply. simpl.
  by rewrite Hrep.
Qed.

(** X8: a download only ever requests the first location of the reply:
    whatever happens, every HTTP GET it issues goes to [paths[0]]; the
    other locations are never tried. *)
Theorem getFile_uses_first_location_only
    (name : string) (key : jsval) (local : string) (callback : jsval)
    (r : reply) (u : string) (others : list jsval)
    (evs : list GetFile.event) (v : string) :
  GetPaths.on_reply r = Some [JNull; JArr (JStr u :: others)] ->
  In (AHttpGet v)
     (GetFile.download_calls name key local callback
        (GetFile.EvPathsReply r :: evs)) ->
  v = u.
Proof.
  intros Hrep. unfold GetFile.download_calls.
  rewrite gf_calls_cons, (gf_after_reply name key local callback r u others Hrep).
  cbn [GetFile.start fst snd app]. intros [Hv|[Hv|Hv]]; try discriminate.
  destruct (gf_healthy_calls local callback u others evs
              (GetFile.State 0 false false (JArr (JStr u :: others)) false
                             true false false false 0%nat false))
    as (_ & Hget & _); try reflexivity.
  by apply Hget.
Qed.

Lemma getFile_uses_first_location_only_witness :
  "http://10.0.0.1:7500/dev1/0/000/000/0000000001.fid"
  = "http://10.0.0.1:7500/dev1/0/000/000/0000000001.fid".
Proof.
  apply (getFile_uses_first_location_only "images" (JStr "cat.jpg")
           "/tmp/cat.jpg" (JFun "done") reply_two_paths _ _
           [GetFile.EvOpen; GetFile.EvGetError (JErr "ECONNREFUSED")]
           "http://10.0.0.1:7500/dev1/0/000/000/0000000001.fid" eq_refl).
  do 2 right. left. reflexivity.
Defined.

(** The 'drain' handler finds [response] assigned whenever it finds
    [paused] set: [paused] is set by the 'data' handler only, which is
    registered when [response] is assigned. *)
Lemma gf_response_assigned_step
    (local : string) (callback : jsval) (s : GetFile.state) (e : GetFile.event) :
  implb (GetFile.paused s) (GetFile.response s) = true ->
  implb (GetFile.on_res s) (GetFile.response s) = true ->
  implb (GetFile.paused (fst (GetFile.step local callback s e)))
        (GetFile.response (fst (GetFile.step local callback s e))) = true
  /\ implb (GetFile.on_res (fst (GetFile.step local callback s e)))
           (GetFile.response (fst (GetFile.step local callback s e))) = true
  /\ (forall c, e = GetFile.EvDrain c ->
        existsb is_uncaught (snd (GetFile.step local callback s e)) = false).
Proof.
  destruct s as [bw pa re p op os orq oge ores t cr]. simpl.
  intros Hp Hr.
  destruct e; gf_cases; simplify_eq/=; repeat split; try done;
    try (intros ? [=]); try (by destruct pa); try (by destruct ores);
    try (by destruct re).
Qed.

Lemma gf_drain_reads_response
    (local : string) (callback : jsval) (evs : list GetFile.event) :
  forall s0 s c acts,
    implb (GetFile.paused s0) (GetFile.response s0) = true ->
    implb (GetFile.on_res s0) (GetFile.response s0) = true ->
    In (s, GetFile.EvDrain c, acts) (GetFile.steps local callback s0 evs) ->
    existsb is_uncaught acts = false.
Proof.
  induction evs as [|e evs IH]; intros s0 s c acts Hp Hr Hin; [destruct Hin|].
  destruct (gf_response_assigned_step local callback s0 e Hp Hr)
    as (Hp' & Hr' & Hdrain).
  destruct Hin as [Heq|Hin].
  - inversion Heq; subst. by apply (Hdrain c).
  - by eapply IH.
Qed.

(** X9: on every download, whatever the order of events, the 'drain'
    handler never reads [response.complete] while [response] is still
    [null], so it never raises. *)
Theorem getFile_drain_never_throws
    (name : string) (key : jsval) (local : string) (callback : jsval)
    (evs : list GetFile.event) (s : GetFile.state) (c : bool)
    (acts : list action) :
  In (s, GetFile.EvDrain c, acts)
     (GetFile.download name key local callback evs) ->
  existsb is_uncaught acts = false.
Proof.
  unfold GetFile.download. apply gf_drain_reads_response; reflexivity.
Qed.

Lemma getFile_drain_never_throws_witness :
  existsb is_uncaught (@nil action) = false.
Proof.
  apply (getFile_drain_never_throws "images" (JStr "cat.jpg") "/tmp/cat.jpg"
           (JFun "done")
           [GetFile.EvPathsReply reply_two_paths; GetFile.EvDrain false;
            GetFile.EvOpen; GetFile.EvResponse; GetFile.EvData 10 false;
            GetFile.EvDrain true]
           (GetFile.State 10 true true
              (JArr [JStr "http://10.0.0.1:7500/dev1/0/000/000/0000000001.fid";
                     JStr "http://10.0.0.2:7500/dev2/0/000/000/0000000001.fid"])
              false true false true true 0%nat false)
           true []).
  do 5 right. left. reflexivity.
Defined.



(** X11: on every download, whatever the events, the source is resumed at
    most as often as it has been paused. *)
Theorem getFile_resumes_only_after_pause
    (name : string) (key : jsval) (local : string) (callback : jsval)
    (evs : list GetFile.event) :
  (length (List.filter is_resume
             (GetFile.download_calls name key local callback evs))
   <= length (List.filter GetFile.is_pause
                (GetFile.download_calls name key local callback evs)))%nat.
Proof.
  unfold GetFile.download_calls. cbn [GetFile.start fst snd app List.filter
    is_resume GetFile.is_pause GetPaths.request].
  pose proof (gf_calls_resumes local callback evs
                (GetFile.State 0 false false JUndefined true false false false
                               false 0%nat false)) as H.
  simpl in H. lia.
Qed.

(** X12: on every download, a byte count is reported at most once per
    'end' event of the source, and the sink is closed at most once per
    'end' event or transport error. *)
Theorem getFile_reports_once_per_end
    (name : string) (key : jsval) (local : string) (callback : jsval)
    (evs : list GetFile.event) :
  (length (List.filter is_success
             (GetFile.download_calls name key local callback evs))
   <= length (List.filter is_end evs))%nat
  /\ (length (List.filter is_sink_close
                (GetFile.download_calls name key local callback evs))
      <= length (List.filter is_end evs)
         + length (List.filter GetFile.is_get_error evs))%nat.
Proof.
  unfold GetFile.download_calls. cbn [GetFile.start fst snd app List.filter
    is_success is_sink_close GetPaths.request].
  pose proof (gf_calls_reports local callback evs
                (GetFile.State 0 false false JUndefined true false false false
                               false 0%nat false)) as [H1 H2].
  simpl in H1, H2. split; lia.
Qed.



(** ** Upload, continued *)

Section UploadRuns.

Variable name : string.
Variables key storage_class : jsval.
Variable local : string.
Variable callback : jsval.

Local Abbreviation step := (StoreFile.step name key storage_class local callback).
Local Abbreviation calls := (StoreFile.calls name key storage_class local callback).
Local Abbreviation cb := (StoreFile.cb callback).

Lemma sf_inert (evs : list StoreFile.event) :
  forall s,
    StoreFile.on_open_reply s = false -> StoreFile.on_stat s = false ->
    StoreFile.on_request_error s = false ->
    StoreFile.on_source_end s = false ->
    StoreFile.close_replies s = 0%nat ->
    calls s evs = [].
Proof.
  induction evs as [|e evs IH]; intros s H1 H2 H3 H4 H5; [reflexivity|].
  assert (Hstep : step s e = (s, [])).
  { unfold StoreFile.step. rewrite H1, H2, H3, H4, H5.
    destruct (StoreFile.crashed s), e; reflexivity. }
  rewrite sf_calls_cons, Hstep. simpl. by apply IH.
Qed.


(** Success is reported only by the handler of a CREATE_CLOSE reply that
    carries no error. *)
Lemma sf_success_needs_ok_reply (s : StoreFile.state) (e : StoreFile.event) :
  existsb is_success (snd (step s e)) = true -> is_close_reply_ok e = true.
Proof.
  destruct e; sf_cases; intros Hs; try discriminate; try done.
  all: try match goal with
           | H : truthy _ = false |- _ => by rewrite H
           end.
  all: match type of Hs with
       | context [match ?x with _ => _ end] => destruct x; discriminate
       end.
Qed.

(** The source's 'end' has a listener only once the PUT has been set up. *)
Lemma sf_end_listener_needs_put (s : StoreFile.state) (e : StoreFile.event) :
  StoreFile.on_source_end (fst (step s e)) = true ->
  StoreFile.on_source_end s = true \/ existsb is_put (snd (step s e)) = true.
Proof. destruct e; sf_cases; simplify_eq/=; auto; congruence. Qed.

Lemma sf_close_needs_put (evs : list StoreFile.event) :
  forall s pre a post,
    calls s evs = pre ++ a :: post ->
    StoreFile.is_close a = true ->
    StoreFile.on_source_end s = true \/ existsb is_put pre = true.
Proof.
  induction evs as [|e evs IH]; intros s pre a post Heq Ha.
  - by destruct pre.
  - rewrite sf_calls_cons in Heq.
    apply split_in_app in Heq as [(post1 & Hacts & _)|(pre2 & -> & Hrest)].
    + left.
      assert (Hin : In a (List.filter StoreFile.is_close (snd (step s e)))).
      { apply List.filter_In. split; [|done]. rewrite Hacts.
        apply in_or_app. right. by left. }
      rewrite sf_step_closes in Hin.
      destruct (StoreFile.is_source_end e); [|destruct Hin].
      by destruct (StoreFile.on_source_end s).
    + destruct (IH _ _ _ _ Hrest Ha) as [Hend|Hput].
      * destruct (sf_end_listener_needs_put s e Hend) as [H|H]; [by left|].
        right. by rewrite existsb_app, H.
      * right. by rewrite existsb_app, Hput, orb_true_r.
Qed.

(** One success per CREATE_CLOSE sent, one CREATE_CLOSE per 'end'. *)
Lemma sf_step_counts (s : StoreFile.state) (e : StoreFile.event) :
  (length (List.filter is_success (snd (step s e)))
   + StoreFile.close_replies (fst (step s e))
   <= StoreFile.close_replies s
      + length (List.filter StoreFile.is_close (snd (step s e))))%nat
  /\ (length (List.filter StoreFile.is_close (snd (step s e)))
      <= if StoreFile.is_source_end e then 1 else 0)%nat.
Proof.
  destruct s, e; sf_cases; simplify_eq/=; try lia.
  all: match goal with
       | |- context [ACall _ [?x]] => destruct x; simpl; lia
       end.
Qed.

Lemma sf_calls_counts (evs : list StoreFile.event) :
  forall s,
    (length (List.filter is_success (calls s evs))
     <= StoreFile.close_replies s
        + length (List.filter StoreFile.is_close (calls s evs)))%nat
    /\ (length (List.filter StoreFile.is_close (calls s evs))
        <= length (List.filter StoreFile.is_source_end evs))%nat.
Proof.
  induction evs as [|e evs IH]; intros s; [simpl; lia|].
  rewrite sf_calls_cons, !List.filter_app, !length_app.
  destruct (sf_step_counts s e) as [H1 H2].
  destruct (IH (fst (step s e))) as [IH1 IH2].
  cbn [List.filter]. destruct e; simpl in *; lia.
Qed.

End UploadRuns.

(** X14: when the tracker answers CREATE_OPEN with an error, the upload
    calls back with that error alone and does nothing else, whatever
    happens afterwards: the file is not read and nothing is sent. *)
Theorem storeFile_open_error
    (name : string) (key storage_class : jsval) (local : string)
    (callback : jsval) (r : reply) (evs : list StoreFile.event) :
  truthy (r_err r) = true ->
  StoreFile.upload_calls name key storage_class local callback
    (StoreFile.EvOpenReply r :: evs)
  = [ASend name "CREATE_OPEN" (StoreFile.open_args key storage_class);
     ACall (StoreFile.cb callback) [r_err r]].
Proof.
  intros Herr. unfold StoreFile.upload_calls. rewrite sf_calls_cons.
  unfold StoreFile.step, StoreFile.on_open_reply_ev.
  cbn [StoreFile.start fst snd StoreFile.crashed StoreFile.on_open_reply].
  rewrite Herr. cbn [fst snd]. by rewrite sf_inert.
Qed.

Lemma storeFile_open_error_witness :
  StoreFile.upload_calls "images" (JStr "cat.jpg") (JStr "thumbs")
    "/tmp/cat.jpg" (JFun "done")
    [StoreFile.EvOpenReply (Reply (JErr "no_devices") ∅);
     StoreFile.EvStat JNull 4096; StoreFile.EvSourceEnd]
  = [ASend "images" "CREATE_OPEN"
       (StoreFile.open_args (JStr "cat.jpg") (JStr "thumbs"));
     ACall (JFun "done") [JErr "no_devices"]].
Proof.
  exact (storeFile_open_error "images" (JStr "cat.jpg") (JStr "thumbs")
           "/tmp/cat.jpg" (JFun "done") (Reply (JErr "no_devices") ∅)
           [StoreFile.EvStat JNull 4096; StoreFile.EvSourceEnd] eq_refl).
Defined.

Lemma sf_step_open_ok
    (name : string) (key storage_class : jsval) (local : string)
    (callback : jsval) (r : reply) :
  truthy (r_err r) = false ->
  StoreFile.step name key storage_class local callback
    (fst (StoreFile.start name key storage_class)) (StoreFile.EvOpenReply r)
  = (StoreFile.State (r_response r) 0 false true false false 0%nat false,
     [AStat local]).
Proof.
  intros Hopen. unfold StoreFile.step, StoreFile.on_open_reply_ev. simpl.
  by rewrite Hopen.
Qed.

Lemma sf_step_stat
    (name : string) (key storage_class : jsval) (local : string)
    (callback : jsval) (response : jsobj) (err : jsval) (size : Z) :
  StoreFile.step name key storage_class local callback
    (StoreFile.State response 0 false true false false 0%nat false)
    (StoreFile.EvStat err size)
  = if truthy err
    then (StoreFile.State response 0 false false false false 0%nat false,
          [ACall (StoreFile.cb callback) [err]])
    else match GetFile.url_parse (prop response "path") with
         | None =>
             (StoreFile.State response size false false false false 0%nat true,
              [AUncaught "TypeError"])
         | Some u =>
             (StoreFile.State response size false false true true 0%nat false,
              [AHttpPut u size; ACreateReadStream local; APipe])
         end.
Proof. reflexivity. Qed.


(** X15: when [fs.stat] fails after CREATE_OPEN succeeded, the upload
    calls back with that error and stops: no PUT is made and CREATE_CLOSE
    is never sent, so the opened transaction is left as it is. *)
Theorem storeFile_stat_error
    (name : string) (key storage_class : jsval) (local : string)
    (callback : jsval) (r : reply) (err : jsval) (size : Z)
    (evs : list StoreFile.event) :
  truthy (r_err r) = false ->
  truthy err = true ->
  StoreFile.upload_calls name key storage_class local callback
    (StoreFile.EvOpenReply r :: StoreFile.EvStat err size :: evs)
  = [ASend name "CREATE_OPEN" (StoreFile.open_args key storage_class);
     AStat local;
     ACall (StoreFile.cb callback) [err]].
Proof.
  intros Hopen Herr. unfold StoreFile.upload_calls.
  rewrite sf_calls_cons, sf_step_open_ok by done. cbn [fst snd].
  rewrite sf_calls_cons, sf_step_stat, Herr. cbn [fst snd].
  by rewrite sf_inert.
Qed.

Lemma storeFile_stat_error_witness :
  StoreFile.upload_calls "images" (JStr "cat.jpg") (JStr "thumbs")
    "/tmp/cat.jpg" (JFun "done")
    [StoreFile.EvOpenReply reply_open; StoreFile.EvStat (JErr "ENOENT") 0;
     StoreFile.EvSourceEnd]
  = [ASend "images" "CREATE_OPEN"
       (StoreFile.open_args (JStr "cat.jpg") (JStr "thumbs"));
     AStat "/tmp/cat.jpg";
     ACall (JFun "done") [JErr "ENOENT"]].
Proof.
  exact (storeFile_stat_error "images" (JStr "cat.jpg") (JStr "thumbs")
           "/tmp/cat.jpg" (JFun "done") reply_open (JErr "ENOENT") 0
           [StoreFile.EvSourceEnd] eq_refl eq_refl).
Defined.




(** X17: an upload reports success only from the reply to CREATE_CLOSE:
    in a run in which every such reply carries an error (or none comes),
    no byte count is ever reported, although the bytes were sent. *)
Theorem storeFile_close_failure_is_failure
    (name : string) (key storage_class : jsval) (local : string)
    (callback : jsval) (evs : list StoreFile.event) :
  existsb is_close_reply_ok evs = false ->
  existsb is_success
    (StoreFile.upload_calls name key storage_class local callback evs) = false.
Proof.
  intros Hno. unfold StoreFile.upload_calls.
  cbn [StoreFile.start fst snd app existsb is_success orb].
  generalize (StoreFile.State ∅ 0 true false false false 0%nat false).
  induction evs as [|e evs IH]; intros s; [reflexivity|].
  simpl in Hno. apply orb_false_iff in Hno as [He Hno].
  rewrite sf_calls_cons, existsb_app, (IH Hno), orb_false_r.
  destruct (existsb is_success _) eqn:Hs; [|reflexivity].
  apply sf_success_needs_ok_reply in Hs. congruence.
Qed.

Lemma storeFile_close_failure_is_failure_witness :
  existsb is_success
    (StoreFile.upload_calls "images" (JStr "cat.jpg") (JStr "thumbs")
       "/tmp/cat.jpg" (JFun "done")
       [StoreFile.EvOpenReply reply_open; StoreFile.EvStat JNull 4096;
        StoreFile.EvSourceEnd; StoreFile.EvPutResponse 201;
        StoreFile.EvCloseReply (Reply (JErr "size_mismatch") ∅)]) = false.
Proof.
  exact (storeFile_close_failure_is_failure "images" (JStr "cat.jpg")
           (JStr "thumbs") "/tmp/cat.jpg" (JFun "done")
           [StoreFile.EvOpenReply reply_open; StoreFile.EvStat JNull 4096;
            StoreFile.EvSourceEnd; StoreFile.EvPutResponse 201;
            StoreFile.EvCloseReply (Reply (JErr "size_mismatch") ∅)]
           eq_refl).
Defined.

(** X18: on every upload, whatever the events, a CREATE_CLOSE request is
    sent only after the PUT request has been made. *)
Theorem storeFile_put_before_close
    (name : string) (key storage_class : jsval) (local : string)
    (callback : jsval) (evs : list StoreFile.event)
    (pre post : list action) (a : action) :
  StoreFile.upload_calls name key storage_class local callback evs
  = pre ++ a :: post ->
  StoreFile.is_close a = true ->
  existsb is_put pre = true.
Proof.
  unfold StoreFile.upload_calls. cbn [StoreFile.start fst snd app].
  intros Heq Ha. destruct pre as [|b pre].
  - inversion Heq; subst. discriminate.
  - inversion Heq as [[Hb Hrest]]. subst b.
    apply sf_close_needs_put in Hrest as [H|H]; [discriminate|done|done].
Qed.

Lemma storeFile_put_before_close_witness :
  existsb is_put
    [ASend "images" "CREATE_OPEN"
       (StoreFile.open_args (JStr "cat.jpg") (JStr "thumbs"));
     AStat "/tmp/cat.jpg";
     AHttpPut "http://127.0.0.1:7500/dev95/0/504/917/0504917521.fid" 4096;
     ACreateReadStream "/tmp/cat.jpg"; APipe; ARequestEnd] = true.
Proof.
  apply (storeFile_put_before_close "images" (JStr "cat.jpg") (JStr "thumbs")
           "/tmp/cat.jpg" (JFun "done")
           [StoreFile.EvOpenReply reply_open; StoreFile.EvStat JNull 4096;
            StoreFile.EvSourceEnd]
           _ []
           (ASend "images" "CREATE_CLOSE"
              (StoreFile.close_args (JStr "cat.jpg") (JStr "thumbs")
                 (r_response reply_open)))).
  - vm_compute. reflexivity.
  - reflexivity.
Defined.

(** X19: on every upload, whatever the events, there are at most as many
    reports of success as CREATE_CLOSE requests sent, and at most as many
    CREATE_CLOSE requests as 'end' events of the source. *)
Theorem storeFile_reports_once_per_close
    (name : string) (key storage_class : jsval) (local : string)
    (callback : jsval) (evs : list StoreFile.event) :
  (length (List.filter is_success
             (StoreFile.upload_calls name key storage_class local callback evs))
   <= length (List.filter StoreFile.is_close
                (StoreFile.upload_calls name key storage_class local callback
                   evs)))%nat
  /\ (length (List.filter StoreFile.is_close
                (StoreFile.upload_calls name key storage_class local callback
                   evs))
      <= length (List.filter StoreFile.is_source_end evs))%nat.
Proof.
  unfold StoreFile.upload_calls. cbn [StoreFile.start fst snd app List.filter
    is_success StoreFile.is_close String.eqb Ascii.eqb Bool.eqb].
  pose proof (sf_calls_counts name key storage_class local callback evs
                (StoreFile.State ∅ 0 true false false false 0%nat false))
    as [H1 H2].
  simpl in H1. split; [lia|exact H2].
Qed.


